(** * The JSON-file database of tws-toolbelt

    A shallow embedding of [src/database.ts]: the single-collection store
    ([createDatabase]) and the multi-table store ([createMultiTableDatabase]),
    followed by the properties of their CRUD operations.

    Conventions of the embedding.
    - [db.data] is the state.  [db.update(fn)] of lowdb runs [fn] on
      [db.data] and then writes the file; the file is no part of the state,
      so a mutating operation is a function from the document to a result
      and the next document.
    - A record is a JS object read and written as a map from field names to
      values ([gmap string value]); the object spread [{...a, ...b}] is the
      union of the two maps in which the fields of [b] win.
    - Numbers are the integers [Z]: the ids of the database are strings and
      whole numbers, and [===] on them is equality.
    - [undefined] returned by [Array.prototype.find] is [None]. *)

From Stdlib Require Import ZArith String Ascii.
From stdpp Require Import gmap strings list fin_maps sorting.

Set Warnings "-register-all".

Open Scope string_scope.
Open Scope Z_scope.
Open Scope list_scope.

(** ** JavaScript values, records and arrays *)

Module Js.

Inductive value : Type :=
| VUndefined
| VNull
| VBool (b : bool)
| VNum (n : Z)
| VStr (s : string)
| VArr (items : list value)
| VObj (fields : gmap string value).

(** A record of a collection: the own fields of a plain object. *)
Abbreviation record := (gmap string value).

(** The type [string | number] of the [id] parameters. *)
Inductive ident : Type :=
| IdNum (n : Z)
| IdStr (s : string).

Definition id_value (id : ident) : value :=
  match id with
  | IdNum n => VNum n
  | IdStr s => VStr s
  end.

(** [v === id] for [id : string | number]: same type and same value. *)
Definition strict_equals (v : value) (id : ident) : bool :=
  match v, id with
  | VNum a, IdNum b => bool_decide (a = b)
  | VStr a, IdStr b => bool_decide (a = b)
  | _, _ => false
  end.

(** [item.id]: a missing field reads as [undefined]. *)
Definition get_id (item : record) : value :=
  default VUndefined (item !! "id").

(** The callback [(item) => item.id === id]. *)
Definition has_id (id : ident) (item : record) : bool :=
  strict_equals (get_id item) id.

(** [{...item, ...updates}] *)
Definition spread (item updates : record) : record := updates ∪ item.

Section Arrays.
Context {A : Type}.

(** [arr.find(p)] *)
Definition Array_find (p : A → bool) (arr : list A) : option A :=
  List.find p arr.

(** [arr.filter(p)] *)
Definition Array_filter (p : A → bool) (arr : list A) : list A :=
  List.filter p arr.

(** [arr.findIndex(p)]: the index of the first match, or [-1]. *)
Fixpoint findIndex_from (p : A → bool) (arr : list A) (i : Z) : Z :=
  match arr with
  | [] => -1
  | x :: arr' => if p x then i else findIndex_from p arr' (i + 1)
  end.

Definition Array_findIndex (p : A → bool) (arr : list A) : Z :=
  findIndex_from p arr 0.

(** [arr.push(x)] *)
Definition Array_push (arr : list A) (x : A) : list A := arr ++ [x].

(** [arr[index] = x] for an index inside the array, the only way the
    database uses it (the index comes from [findIndex]). *)
Definition Array_set (arr : list A) (index : Z) (x : A) : list A :=
  <[Z.to_nat index := x]> arr.

(** [arr.splice(start, 1)]: the removed elements and the array left.
    A negative [start] counts from the end, and [start] is clamped to
    the length, as in ECMAScript. *)
Definition Array_splice1 (arr : list A) (start : Z) : list A * list A :=
  let len := Z.of_nat (length arr) in
  let from := if start <? 0 then Z.max (len + start) 0
              else Z.min start len in
  let i := Z.to_nat from in
  (take 1 (drop i arr), take i arr ++ drop (S i) arr).
End Arrays.

(** *** Plain objects used as dictionaries

    The own properties in creation order.  Writing an existing key keeps
    its place, a new key goes to the end, [delete] removes the key. *)
Section Objects.
Context {A : Type}.

Abbreviation obj := (list (string * A)).

Fixpoint own_get (o : obj) (k : string) : option A :=
  match o with
  | [] => None
  | (k', v) :: o' => if bool_decide (k' = k) then Some v else own_get o' k
  end.

Fixpoint own_set (o : obj) (k : string) (v : A) : obj :=
  match o with
  | [] => [(k, v)]
  | (k', v') :: o' =>
      if bool_decide (k' = k) then (k, v) :: o'
      else (k', v') :: own_set o' k v
  end.

Fixpoint own_delete (o : obj) (k : string) : obj :=
  match o with
  | [] => []
  | (k', v') :: o' =>
      if bool_decide (k' = k) then own_delete o' k
      else (k', v') :: own_delete o' k
  end.
End Objects.

(** *** [Object.keys]

    Array indices (canonical decimal numerals below [2^32 - 1]) come first
    in ascending order, the other keys follow in creation order. *)
Definition digit_of (a : ascii) : option N :=
  let n := N_of_ascii a in
  if ((48 <=? n) && (n <=? 57))%N then Some (n - 48)%N else None.

Fixpoint parse_digits (s : string) (acc : N) : option N :=
  match s with
  | EmptyString => Some acc
  | String a s' =>
      match digit_of a with
      | Some d => parse_digits s' (10 * acc + d)%N
      | None => None
      end
  end.

Definition array_index (k : string) : option N :=
  match k with
  | EmptyString => None
  | String a s' =>
      if bool_decide (a = "0"%char) then
        if bool_decide (s' = EmptyString) then Some 0%N else None
      else
        match parse_digits k 0 with
        | Some n => if (n <? 4294967295)%N then Some n else None
        | None => None
        end
  end.

Definition index_le (a b : N * string) : Prop := (a.1 ≤ b.1)%N.

#[export] Instance index_le_dec a b : Decision (index_le a b) :=
  decide (a.1 ≤ b.1)%N.

Definition index_keys (ks : list string) : list (N * string) :=
  omap (λ k, (λ n, (n, k)) <$> array_index k) ks.

Definition ordered_keys (ks : list string) : list string :=
  (merge_sort index_le (index_keys ks)).*2
    ++ filter (λ k, array_index k = None) ks.

Definition Object_keys {A} (o : list (string * A)) : list string :=
  ordered_keys o.*1.

(** *** Errors and results *)

Inductive error : Type :=
| Error (message : string)   (** [throw new Error(message)] *)
| TypeError.                 (** raised by the engine: the method called
                                 is not a function *)

Inductive outcome (A : Type) : Type :=
| Return (a : A)
| Throw (e : error).
Arguments Return {A} a.
Arguments Throw {A} e.

(** Sequencing of statements that can raise: [x ← m; k]. *)
#[export] Instance outcome_bind : MBind outcome := λ A B k m,
  match m with
  | Return a => k a
  | Throw e => Throw e
  end.

End Js.

Import Js.

(** ** The single-collection database ([createDatabase])

    Every operation of the instance reads or writes [db.data[collectionName]]
    only, so the state is that array.  The first component of the result of
    a mutating operation is the value the promise resolves to, the second
    the array afterwards. *)

Module Database.

Abbreviation collection := (list record).

(** [{ [collectionName]: [], ...defaultData }] at [collectionName]: the
    empty array, unless [defaultData] has that key itself. *)
Definition dbDefault (defaultData : option collection) : collection :=
  default [] defaultData.

(** [JSONFilePreset(filename, dbDefault)]: the content of the file when it
    exists, the default otherwise. *)
Definition JSONFilePreset (file : option collection) (dflt : collection)
  : collection :=
  default dflt file.

Definition createDatabase (file : option collection)
    (defaultData : option collection) : collection :=
  JSONFilePreset file (dbDefault defaultData).

Definition getAll (data : collection) : collection := data.

Definition getById (id : ident) (data : collection) : option record :=
  Array_find (has_id id) data.

Definition find (predicate : record → bool) (data : collection)
  : collection :=
  Array_filter predicate data.

Definition findOne (predicate : record → bool) (data : collection)
  : option record :=
  Array_find predicate data.

Definition add (item : record) (data : collection) : record * collection :=
  (item, Array_push data item).

Definition update (id : ident) (updates : record) (data : collection)
  : option record * collection :=
  let index := Array_findIndex (has_id id) data in
  let data' :=
    if bool_decide (index ≠ -1) then
      Array_set data index
        (spread (default ∅ (data !! Z.to_nat index)) updates)
    else data in
  (Array_find (has_id id) data', data').

Definition remove (id : ident) (data : collection)
  : option record * collection :=
  let index := Array_findIndex (has_id id) data in
  if bool_decide (index ≠ -1) then
    let '(removed, data') := Array_splice1 data index in
    (head removed, data')
  else (None, data).

Definition count (data : collection) : Z := Z.of_nat (length data).

Definition clear (data : collection) : collection := [].

Definition query {R : Type} (callback : collection → R) (data : collection)
  : R :=
  callback data.

(** A run of [add] and [remove] calls, with the number of [add] calls and
    the number of [remove] calls that returned a record. *)
Inductive call : Type :=
| Add (item : record)
| Remove (id : ident).

Definition step (c : call) (data : collection) : collection :=
  match c with
  | Add item => (add item data).2
  | Remove id => (remove id data).2
  end.

Definition run (calls : list call) (data : collection) : collection :=
  foldl (λ d c, step c d) data calls.

Definition is_add (c : call) : bool :=
  match c with Add _ => true | Remove _ => false end.

Definition adds (calls : list call) : Z :=
  Z.of_nat (length (List.filter is_add calls)).

Fixpoint successful_removes (calls : list call) (data : collection) : Z :=
  match calls with
  | [] => 0
  | c :: calls' =>
      (match c with
       | Remove id => if (remove id data).1 is Some _ then 1 else 0
       | Add _ => 0
       end) + successful_removes calls' (step c data)
  end.

End Database.

(** ** The multi-table database ([createMultiTableDatabase])

    [db.data] is a plain object: its own keys hold the tables and the
    [_metadata] entry, and a read [data[key]] falls back on the properties
    of [Object.prototype].  Assignment and [delete] act on the own keys.
    (An assignment to the one name [__proto__] runs the inherited setter
    in JavaScript; here it is written like any other key, and read back
    the same.)  Two tables never share one array in this embedding. *)

Module MultiTable.

(** What a top-level key of the document holds: an array of records (a
    table), or a plain object (the [_metadata] entry).  An array can carry
    a property [tables] of its own: [createTable('_metadata', rows)] stores
    the list of table names on the array it has just put under
    [_metadata]. *)
Inductive entry : Type :=
| EArray (rows : list record) (tables : option (list string))
| EObject (props : record).

Abbreviation document := (list (string * entry)).

(** The properties every plain object inherits from [Object.prototype]. *)
Definition Object_prototype_names : list string :=
  [ "constructor"; "__defineGetter__"; "__defineSetter__"; "hasOwnProperty";
    "__lookupGetter__"; "__lookupSetter__"; "isPrototypeOf";
    "propertyIsEnumerable"; "toString"; "valueOf"; "__proto__";
    "toLocaleString" ].

(** The value of [data[key]]. *)
Inductive jsref : Type :=
| Undefined
| Own (e : entry)
| Inherited (name : string).

(** [data[key]]: the own property, else the one of [Object.prototype]. *)
Definition doc_get (data : document) (key : string) : jsref :=
  match own_get data key with
  | Some e => Own e
  | None =>
      if bool_decide (key ∈ Object_prototype_names) then Inherited key
      else Undefined
  end.

(** Arrays, objects and functions are truthy, [undefined] is not. *)
Definition truthy (v : jsref) : bool :=
  match v with
  | Undefined => false
  | Own _ | Inherited _ => true
  end.

(** The receiver of [.find], [.filter], [.findIndex], [.push] and
    [.splice]: only an array has these methods; on anything else the call
    raises a [TypeError]. *)
Definition as_array (v : jsref)
  : outcome (list record * option (list string)) :=
  match v with
  | Own (EArray rows tables) => Return (rows, tables)
  | _ => Throw TypeError
  end.

(** [f.length] of the functions of [Object.prototype]; [__proto__] reads as
    the prototype object, which has no [length]. *)
Definition builtin_length (name : string) : value :=
  if bool_decide (name = "__proto__") then VUndefined
  else if bool_decide (name ∈ ["toString"; "valueOf"; "toLocaleString"])
  then VNum 0
  else if bool_decide (name ∈ ["__defineGetter__"; "__defineSetter__"])
  then VNum 2
  else VNum 1.

(** [v.length] *)
Definition length_of (v : jsref) : outcome value :=
  match v with
  | Undefined => Throw TypeError
  | Own (EArray rows _) => Return (VNum (Z.of_nat (length rows)))
  | Own (EObject props) => Return (default VUndefined (props !! "length"))
  | Inherited name => Return (builtin_length name)
  end.

(** [db.update(fn)]: [fn] edits [db.data] in place.  The callbacks of this
    module can only raise at their first statement, before any write, so a
    raising callback leaves the document as it was. *)
Definition db_update (fn : document → outcome document) (data : document)
  : outcome unit * document :=
  match fn data with
  | Return data' => (Return (), data')
  | Throw e => (Throw e, data)
  end.

Definition ensureTable (tableName : string) (data : document)
  : outcome unit :=
  if negb (truthy (doc_get data tableName)) then
    Throw (Error ("Table '" +:+ tableName
                    +:+ "' does not exist. Use createTable() first."))
  else Return ().

Record TableInstance : Type := {
  getAll : document → outcome jsref;
  getById : ident → document → outcome (option record);
  find : (record → bool) → document → outcome (list record);
  findOne : (record → bool) → document → outcome (option record);
  add : record → document → outcome record * document;
  update : ident → record → document → outcome (option record) * document;
  remove : ident → document → outcome (option record) * document;
  count : document → outcome value;
  clear : document → outcome unit * document;
  query : ∀ R : Type, (jsref → R) → document → outcome R;
  exists_ : document → bool
}.

(** [table(tableName)]: the handle is an object of closures over [db]; no
    table is looked up when it is made.  The assignment of [clear] is the
    write of an own key, as in [createTable] below, with the same exception
    of a name [__proto__] the document does not have itself. *)
Definition table (tableName : string) : TableInstance := {|
  getAll := λ data,
    _ ← ensureTable tableName data;
    Return (doc_get data tableName);

  getById := λ id data,
    _ ← ensureTable tableName data;
    '(rows, _) ← as_array (doc_get data tableName);
    Return (Array_find (has_id id) rows);

  find := λ predicate data,
    _ ← ensureTable tableName data;
    '(rows, _) ← as_array (doc_get data tableName);
    Return (Array_filter predicate rows);

  findOne := λ predicate data,
    _ ← ensureTable tableName data;
    '(rows, _) ← as_array (doc_get data tableName);
    Return (Array_find predicate rows);

  add := λ item data,
    match ensureTable tableName data with
    | Throw e => (Throw e, data)
    | Return _ =>
        let '(done, data') :=
          db_update (λ data,
            '(rows, tables) ← as_array (doc_get data tableName);
            Return (own_set data tableName
                      (EArray (Array_push rows item) tables))) data in
        (_ ← done; Return item, data')
    end;

  update := λ id updates data,
    match ensureTable tableName data with
    | Throw e => (Throw e, data)
    | Return _ =>
        let '(done, data') :=
          db_update (λ data,
            '(rows, tables) ← as_array (doc_get data tableName);
            let index := Array_findIndex (has_id id) rows in
            if bool_decide (index ≠ -1) then
              Return (own_set data tableName
                        (EArray
                           (Array_set rows index
                              (spread (default ∅ (rows !! Z.to_nat index))
                                 updates))
                           tables))
            else Return data) data in
        (_ ← done;
         '(rows, _) ← as_array (doc_get data' tableName);
         Return (Array_find (has_id id) rows), data')
    end;

  remove := λ id data,
    match ensureTable tableName data with
    | Throw e => (Throw e, data)
    | Return _ =>
        (* the callback of [db.update], which also assigns [removed] *)
        match as_array (doc_get data tableName) with
        | Throw e => (Throw e, data)
        | Return (rows, tables) =>
            let index := Array_findIndex (has_id id) rows in
            if bool_decide (index ≠ -1) then
              let '(removed, rows') := Array_splice1 rows index in
              (Return (head removed),
               own_set data tableName (EArray rows' tables))
            else (Return None, data)
        end
    end;

  count := λ data,
    _ ← ensureTable tableName data;
    length_of (doc_get data tableName);

  clear := λ data,
    match ensureTable tableName data with
    | Throw e => (Throw e, data)
    | Return _ =>
        db_update (λ data, Return (own_set data tableName (EArray [] None)))
          data
    end;

  query := λ R callback data,
    _ ← ensureTable tableName data;
    Return (callback (doc_get data tableName));

  exists_ := λ data, truthy (doc_get data tableName)
|}.

(** [Object.keys(data).filter((key) => key !== '_metadata')] *)
Definition table_keys (data : document) : list string :=
  filter (λ key, key ≠ "_metadata") (Object_keys data).

Definition listTables (data : document) : list string := table_keys data.

(** [entry.tables = names] *)
Definition set_tables (e : entry) (names : list string) : entry :=
  match e with
  | EArray rows _ => EArray rows (Some names)
  | EObject props => EObject (<["tables" := VArr (VStr <$> names)]> props)
  end.

(** [entry.tables] *)
Definition get_tables (e : entry) : value :=
  match e with
  | EArray _ (Some names) => VArr (VStr <$> names)
  | EArray _ None => VUndefined
  | EObject props => default VUndefined (props !! "tables")
  end.

(** [if (data._metadata) { data._metadata.tables = Object.keys(data)... }] *)
Definition refresh_metadata (data : document) : document :=
  match doc_get data "_metadata" with
  | Own e => own_set data "_metadata" (set_tables e (table_keys data))
  | _ => data
  end.

(** [createTable(tableName, initialData = [])].  The assignment
    [data[tableName] = initialData] is the write of an own key; this is what
    JavaScript does for every name but [__proto__], where, unless the
    document has that key itself, the setter inherited from
    [Object.prototype] runs and no key is added.  The properties of the
    document after [createTable] are stated for the other names. *)
Definition createTable (tableName : string)
    (initialData : option (list record)) (data : document)
  : outcome unit * document :=
  db_update (λ data,
    Return (refresh_metadata
              (own_set data tableName (EArray (default [] initialData) None))))
    data.

Definition dropTable (tableName : string) (data : document)
  : outcome unit * document :=
  db_update (λ data, Return (refresh_metadata (own_delete data tableName)))
    data.

(** The default document [{ ...initialTables, _metadata: {...} }]; [now] is
    [new Date().toISOString()]. *)
Definition dbDefault (now : string)
    (initialTables : list (string * list record)) : document :=
  own_set (prod_map id (λ rows, EArray rows None) <$> initialTables)
    "_metadata"
    (EObject {[ "created" := VStr now;
                "version" := VStr "1.0.0";
                "tables" := VArr (VStr <$> Object_keys initialTables) ]}).

Definition JSONFilePreset (file : option document) (dflt : document)
  : document :=
  default dflt file.

Definition createMultiTableDatabase (file : option document) (now : string)
    (initialTables : list (string * list record)) : document :=
  JSONFilePreset file (dbDefault now initialTables).

End MultiTable.

(** ** Record helpers ([withTimestamps], [updateTimestamp])

    [now] is [new Date().toISOString()] at the time of the call. *)

Module Timestamps.

(** [{ ...data, createdAt: now, updatedAt: now }] *)
Definition withTimestamps (data : record) (now : string) : record :=
  spread data {[ "createdAt" := VStr now; "updatedAt" := VStr now ]}.

(** [{ ...data, updatedAt: new Date().toISOString() }] *)
Definition updateTimestamp (data : record) (now : string) : record :=
  spread data {[ "updatedAt" := VStr now ]}.

End Timestamps.

(** * Properties *)

(** ** Arrays: [find], [findIndex], [splice] *)

Section ArrayFacts.
Context {A : Type} (p : A → bool).

Abbreviation no_match := (Forall (λ x, p x = false)).

Lemma findIndex_from_no_match (arr : list A) (i : Z) :
  no_match arr → findIndex_from p arr i = -1.
Proof.
  intros H. revert i. induction H as [|x arr Hx _ IH]; intros i; simpl.
  - reflexivity.
  - rewrite Hx. apply IH.
Qed.

Lemma findIndex_from_first (l1 l2 : list A) (x : A) (i : Z) :
  no_match l1 → p x = true →
  findIndex_from p (l1 ++ x :: l2) i = i + Z.of_nat (length l1).
Proof.
  intros H Hx. revert i. induction H as [|y l1 Hy _ IH]; intros i; simpl.
  - rewrite Hx. lia.
  - rewrite Hy, IH. lia.
Qed.

(** The two ways [findIndex] can end: no element matches, or the array
    splits at its first match. *)
Lemma findIndex_cases (arr : list A) :
  (Array_findIndex p arr = -1 ∧ no_match arr) ∨
  (∃ l1 x l2, arr = l1 ++ x :: l2 ∧ no_match l1 ∧ p x = true ∧
              Array_findIndex p arr = Z.of_nat (length l1)).
Proof.
  induction arr as [|y arr IH].
  - left. split; [reflexivity | constructor].
  - destruct (p y) eqn:Hy.
    + right. exists [], y, arr. repeat split; try constructor; try done.
      unfold Array_findIndex. simpl. by rewrite Hy.
    + destruct IH as [[_ Hno] | (l1 & x & l2 & -> & Hno & Hx & _)].
      * left. split; [|by constructor].
        apply findIndex_from_no_match. by constructor.
      * right. exists (y :: l1), x, l2. repeat split; try done.
        { by constructor. }
        unfold Array_findIndex. rewrite app_comm_cons.
        rewrite (findIndex_from_first (y :: l1) l2 x 0)
          by (try constructor; done).
        simpl length. lia.
Qed.

(** The index found lies inside the array, so [arr[index] = x] and
    [arr.splice(index, 1)] never act out of range. *)
Lemma findIndex_range (arr : list A) :
  Array_findIndex p arr = -1
  ∨ 0 ≤ Array_findIndex p arr < Z.of_nat (length arr).
Proof.
  destruct (findIndex_cases arr)
    as [[H _] | (l1 & x & l2 & -> & _ & _ & ->)]; [by left | right].
  rewrite length_app. simpl. lia.
Qed.

Lemma findIndex_no_match (arr : list A) :
  no_match arr → Array_findIndex p arr = -1.
Proof. apply findIndex_from_no_match. Qed.

Lemma findIndex_first (l1 l2 : list A) (x : A) :
  no_match l1 → p x = true →
  Array_findIndex p (l1 ++ x :: l2) = Z.of_nat (length l1).
Proof.
  intros. unfold Array_findIndex. rewrite findIndex_from_first by done. lia.
Qed.

Lemma find_no_match (arr : list A) : no_match arr → Array_find p arr = None.
Proof.
  unfold Array_find. induction 1 as [|x arr Hx _ IH]; simpl.
  - reflexivity.
  - by rewrite Hx.
Qed.

Lemma find_first (l1 l2 : list A) (x : A) :
  no_match l1 → p x = true → Array_find p (l1 ++ x :: l2) = Some x.
Proof.
  unfold Array_find. induction 1 as [|y l1 Hy _ IH]; intros Hx; simpl.
  - by rewrite Hx.
  - rewrite Hy. by apply IH.
Qed.

Lemma find_head_filter (arr : list A) :
  Array_find p arr = head (Array_filter p arr).
Proof.
  unfold Array_find, Array_filter. induction arr as [|x arr IH]; simpl.
  - reflexivity.
  - destruct (p x); [reflexivity | apply IH].
Qed.

Lemma set_first (l1 l2 : list A) (x y : A) :
  Array_set (l1 ++ x :: l2) (Z.of_nat (length l1)) y = l1 ++ y :: l2.
Proof.
  unfold Array_set. rewrite Nat2Z.id, insert_app_r_alt by lia.
  by rewrite Nat.sub_diag.
Qed.

Lemma splice1_first (l1 l2 : list A) (x : A) :
  Array_splice1 (l1 ++ x :: l2) (Z.of_nat (length l1)) = ([x], l1 ++ l2).
Proof.
  unfold Array_splice1.
  assert (Hlen : length (l1 ++ x :: l2) = (length l1 + S (length l2))%nat)
    by (rewrite length_app; reflexivity).
  rewrite Hlen.
  replace (Z.of_nat (length l1) <? 0) with false by (symmetry; lia).
  rewrite Z.min_l, Nat2Z.id by lia.
  rewrite take_app_length.
  rewrite (drop_app_length' l1 (x :: l2) (length l1)) by done.
  replace (x :: l2) with ([x] ++ l2) by done.
  rewrite app_assoc.
  rewrite (drop_app_length' (l1 ++ [x]) l2)
    by (rewrite length_app; simpl; lia).
  done.
Qed.

End ArrayFacts.

(** ** Records: ids and the object spread *)

Section RecordFacts.

Lemma strict_equals_id_value (id : ident) :
  strict_equals (id_value id) id = true.
Proof. destruct id; simpl; by rewrite bool_decide_eq_true. Qed.

Lemma has_id_get_id (id : ident) (item : record) :
  get_id item = id_value id → has_id id item = true.
Proof. unfold has_id. intros ->. apply strict_equals_id_value. Qed.

Lemma spread_overlaid (item updates : record) (k : string) (v : value) :
  updates !! k = Some v → spread item updates !! k = Some v.
Proof. intros H. unfold spread. by apply lookup_union_Some_l. Qed.

Lemma spread_preserved (item updates : record) (k : string) :
  updates !! k = None → spread item updates !! k = item !! k.
Proof. intros H. unfold spread. by apply lookup_union_r. Qed.

(** An update that does not mention [id] leaves the id of the record. *)
Lemma spread_keeps_id (id : ident) (item updates : record) :
  updates !! "id" = None →
  has_id id (spread item updates) = has_id id item.
Proof.
  intros H. unfold has_id, get_id. by rewrite spread_preserved.
Qed.

End RecordFacts.

(** ** The single-collection database *)

Section DatabaseFacts.
Implicit Types (data : list record) (item r : record) (id : ident).

Lemma update_unmatched id (updates : record) data :
  Forall (λ x, has_id id x = false) data →
  Database.update id updates data = (None, data).
Proof.
  intros H. unfold Database.update.
  rewrite findIndex_no_match by done.
  rewrite bool_decide_eq_false_2 by (intros Hne; by apply Hne).
  by rewrite find_no_match.
Qed.

Lemma remove_unmatched id data :
  Forall (λ x, has_id id x = false) data →
  Database.remove id data = (None, data).
Proof.
  intros H. unfold Database.remove.
  rewrite findIndex_no_match by done.
  by rewrite bool_decide_eq_false_2 by (intros Hne; by apply Hne).
Qed.

Lemma remove_matched id (l1 l2 : list record) (x : record) :
  Forall (λ y, has_id id y = false) l1 → has_id id x = true →
  Database.remove id (l1 ++ x :: l2) = (Some x, l1 ++ l2).
Proof.
  intros H Hx. unfold Database.remove.
  rewrite findIndex_first by done.
  rewrite bool_decide_eq_true_2 by lia.
  by rewrite splice1_first.
Qed.

(** [update] on a record that is found and whose id the update keeps:
    the merged record is stored where the old one was and is the one
    returned. *)
Lemma update_matched_keeping_id id (updates : record)
    (l1 l2 : list record) (old : record) :
  Forall (λ y, has_id id y = false) l1 → has_id id old = true →
  has_id id (spread old updates) = true →
  Database.update id updates (l1 ++ old :: l2)
  = (Some (spread old updates), l1 ++ spread old updates :: l2).
Proof.
  intros H Hold Hnew. unfold Database.update.
  rewrite findIndex_first by done.
  rewrite bool_decide_eq_true_2 by lia.
  rewrite Nat2Z.id, list_lookup_middle by done. simpl.
  rewrite set_first. by rewrite find_first.
Qed.

(** One call changes the length by what it added or removed. *)
Lemma count_step (c : Database.call) data :
  Database.count (Database.step c data)
  = Database.count data
    + (if Database.is_add c then 1 else 0)
    - Database.successful_removes [c] data.
Proof.
  destruct c as [item | id]; simpl.
  - unfold Database.count, Array_push. rewrite length_app. simpl. lia.
  - destruct (findIndex_cases (has_id id) data)
      as [[_ Hno] | (l1 & x & l2 & -> & Hno & Hx & _)].
    + rewrite remove_unmatched by done. simpl. lia.
    + rewrite remove_matched by done. simpl.
      unfold Database.count. rewrite !length_app. simpl. lia.
Qed.

Lemma count_run (calls : list Database.call) data :
  Database.count (Database.run calls data)
  = Database.count data + Database.adds calls
    - Database.successful_removes calls data.
Proof.
  revert data. induction calls as [|c calls IH]; intros data.
  - unfold Database.adds. simpl. lia.
  - change (Database.run (c :: calls) data)
      with (Database.run calls (Database.step c data)).
    rewrite IH, count_step.
    assert (Database.successful_removes (c :: calls) data
            = Database.successful_removes [c] data
              + Database.successful_removes calls (Database.step c data))
      as -> by (simpl; lia).
    unfold Database.adds. simpl List.filter.
    destruct (Database.is_add c); simpl length; lia.
Qed.

End DatabaseFacts.

Section DatabaseClaims.
Implicit Types (data : list record) (item r : record) (id : ident).

(** C4, as stated, fails: ids are not checked by [add], and [getById]
    returns the first record with the id.  After adding
    [{id: 1, name: 'B'}] to a collection that holds [{id: 1, name: 'A'}],
    [getById(1)] is not the record added. *)
Lemma add_then_getById_duplicate_id :
  Database.getById (IdNum 1)
    (Database.add {[ "id" := VNum 1; "name" := VStr "B" ]}
       [ {[ "id" := VNum 1; "name" := VStr "A" ]} ]).2
  ≠ Some {[ "id" := VNum 1; "name" := VStr "B" ]}.
Proof.
  intros H. apply (f_equal (λ o, o ≫= (.!! "name"))) in H.
  vm_compute in H. discriminate H.
Qed.

(** C4 (amended): for every record [r] whose [id] is the string or number
    [id], and every collection in which no record has that id, [getById(id)]
    right after [add(r)] returns [r]; the collection read is the one in
    memory. *)
Theorem add_then_getById r id data :
  get_id r = id_value id →
  Forall (λ x, has_id id x = false) data →
  Database.getById id (Database.add r data).2 = Some r.
Proof.
  intros Hid Hfresh. unfold Database.getById, Database.add, Array_push.
  simpl. apply find_first; [done | by apply has_id_get_id].
Qed.

Lemma add_then_getById_witness :
  get_id {[ "id" := VStr "u2"; "name" := VStr "B" ]} = id_value (IdStr "u2")
  ∧ Forall (λ x, has_id (IdStr "u2") x = false)
      [ {[ "id" := VStr "u1"; "name" := VStr "A" ]} ]
  ∧ Database.getById (IdStr "u2")
      (Database.add {[ "id" := VStr "u2"; "name" := VStr "B" ]}
         [ {[ "id" := VStr "u1"; "name" := VStr "A" ]} ]).2
    = Some {[ "id" := VStr "u2"; "name" := VStr "B" ]}.
Proof.
  assert (H1 : get_id {[ "id" := VStr "u2"; "name" := VStr "B" ]}
               = id_value (IdStr "u2")) by reflexivity.
  assert (H2 : Forall (λ x, has_id (IdStr "u2") x = false)
                 [ {[ "id" := VStr "u1"; "name" := VStr "A" ]} ])
    by (repeat constructor).
  exact (conj H1 (conj H2 (add_then_getById _ _ _ H1 H2))).
Defined.

(** C5: [add(r)] returns [r] and leaves the collection with [r] appended
    after the records it had, whatever their ids (one record more, also
    when the id of [r] is taken); [getById(id)] is the first, in collection
    order, of the records with that id. *)
Theorem add_appends_getById_first r data id :
  Database.add r data = (r, data ++ [r])
  ∧ Database.count (Database.add r data).2 = Database.count data + 1
  ∧ Database.getById id data = head (Database.find (has_id id) data).
Proof.
  split; [reflexivity | split].
  - unfold Database.count, Database.add, Array_push. simpl.
    rewrite length_app. simpl. lia.
  - apply find_head_filter.
Qed.

(** C6: when no record of the collection has the id, [update] and [remove]
    resolve to [undefined] (they cannot raise: both are total functions) and
    leave the collection, hence [count()], as it was. *)
Theorem update_remove_unknown_id id (updates : record) data :
  Forall (λ x, has_id id x = false) data →
  Database.update id updates data = (None, data)
  ∧ Database.remove id data = (None, data)
  ∧ Database.count (Database.update id updates data).2 = Database.count data
  ∧ Database.count (Database.remove id data).2 = Database.count data.
Proof.
  intros H. rewrite update_unmatched, remove_unmatched by done. done.
Qed.

Lemma update_remove_unknown_id_witness :
  Forall (λ x, has_id (IdNum 999) x = false)
    [ {[ "id" := VNum 1; "name" := VStr "Test Item" ]} ]
  ∧ Database.update (IdNum 999) {[ "value" := VNum 30 ]}
      [ {[ "id" := VNum 1; "name" := VStr "Test Item" ]} ]
    = (None, [ {[ "id" := VNum 1; "name" := VStr "Test Item" ]} ]).
Proof.
  assert (H : Forall (λ x, has_id (IdNum 999) x = false)
                [ {[ "id" := VNum 1; "name" := VStr "Test Item" ]} ])
    by (repeat constructor).
  exact (conj H (proj1 (update_remove_unknown_id _ _ _ H))).
Defined.

(** C7: on the collection of a database created on a new file, after any
    run of [add] and [remove] calls [count()] is the number of [add] calls
    minus the number of [remove] calls that returned a record. *)
Theorem count_after_adds_and_removes (calls : list Database.call) :
  Database.count (Database.run calls (Database.createDatabase None None))
  = Database.adds calls
    - Database.successful_removes calls (Database.createDatabase None None).
Proof. rewrite count_run. reflexivity. Qed.

End DatabaseClaims.

(** ** Objects used as dictionaries *)

Section ObjectFacts.
Context {A : Type}.
Implicit Types (o : list (string * A)) (k : string) (v : A).

Lemma own_get_set_eq o k v : own_get (own_set o k v) k = Some v.
Proof.
  induction o as [|[k' v'] o IH]; simpl.
  - by rewrite bool_decide_eq_true_2.
  - case_bool_decide as Hk; simpl.
    + by rewrite bool_decide_eq_true_2.
    + by rewrite bool_decide_eq_false_2.
Qed.

Lemma own_get_set_ne o k k' v :
  k ≠ k' → own_get (own_set o k v) k' = own_get o k'.
Proof.
  intros Hne. induction o as [|[k0 v0] o IH]; simpl.
  - by rewrite bool_decide_eq_false_2.
  - case_bool_decide as Hk; simpl.
    + subst k0. by rewrite !bool_decide_eq_false_2.
    + by rewrite IH.
Qed.

Lemma own_get_delete_eq o k : own_get (own_delete o k) k = None.
Proof.
  induction o as [|[k' v'] o IH]; simpl; [done|].
  case_bool_decide as Hk; simpl; [done|].
  by rewrite bool_decide_eq_false_2.
Qed.

Lemma own_get_delete_ne o k k' :
  k ≠ k' → own_get (own_delete o k) k' = own_get o k'.
Proof.
  intros Hne. induction o as [|[k0 v0] o IH]; simpl; [done|].
  case_bool_decide as Hk; simpl.
  - subst k0. by rewrite bool_decide_eq_false_2.
  - by rewrite IH.
Qed.

(** [delete] of a key the object does not have changes nothing. *)
Lemma own_delete_absent o k : own_get o k = None → own_delete o k = o.
Proof.
  induction o as [|[k' v'] o IH]; simpl; [done|].
  case_bool_decide as Hk; [done|]. intros H. by rewrite IH.
Qed.

(** Writing a key the object has keeps the keys and their order. *)
Lemma own_set_keys o k v :
  is_Some (own_get o k) → (own_set o k v).*1 = o.*1.
Proof.
  induction o as [|[k' v'] o IH]; cbn [own_get own_set].
  - by intros [? ?].
  - case_bool_decide as Hk; [by subst k'|].
    intros H. rewrite !fmap_cons. f_equal. by apply IH.
Qed.

Lemma own_get_is_Some o k : is_Some (own_get o k) ↔ k ∈ o.*1.
Proof.
  induction o as [|[k' v'] o IH]; simpl.
  - split; [by intros [? ?] | by intros ?%elem_of_nil].
  - case_bool_decide as Hk.
    + subst k'. split; [intros _; by left | by eauto].
    + rewrite IH, elem_of_cons. split; [by right | by intros [-> | ?]].
Qed.

Lemma ordered_keys_elem (ks : list string) k : k ∈ ordered_keys ks ↔ k ∈ ks.
Proof.
  unfold ordered_keys, index_keys.
  rewrite elem_of_app, list_elem_of_fmap, list_elem_of_filter. split.
  - intros [([n k'] & -> & Hin) | [_ Hin]]; [|done].
    rewrite merge_sort_Permutation in Hin.
    apply list_elem_of_omap in Hin as (k0 & Hk0 & Heq).
    destruct (array_index k0); simplify_eq/=. done.
  - intros Hin. destruct (array_index k) as [n|] eqn:Hn; [left | by right].
    exists (n, k). split; [done|].
    rewrite merge_sort_Permutation. apply list_elem_of_omap.
    exists k. by rewrite Hn.
Qed.

(** [Object.keys] lists the own keys. *)
Lemma Object_keys_elem o k : k ∈ Object_keys o ↔ is_Some (own_get o k).
Proof. unfold Object_keys. by rewrite ordered_keys_elem, own_get_is_Some. Qed.

End ObjectFacts.

(** ** The multi-table database *)

Section MultiTableFacts.
Import MultiTable.
Implicit Types (data : document) (tableName k : string) (e : entry).

Lemma doc_get_own data k e : own_get data k = Some e → doc_get data k = Own e.
Proof. unfold doc_get. by intros ->. Qed.

Lemma doc_get_metadata data :
  doc_get data "_metadata"
  = match own_get data "_metadata" with
    | Some e => Own e
    | None => Undefined
    end.
Proof. unfold doc_get. by destruct (own_get data "_metadata"). Qed.

(** [data[key]] is [undefined] exactly for the keys that are neither the
    document's own nor inherited. *)
Lemma doc_get_undefined data k :
  doc_get data k = Undefined
  ↔ own_get data k = None ∧ k ∉ Object_prototype_names.
Proof.
  unfold doc_get. destruct (own_get data k).
  - split; [done | by intros [? _]].
  - case_bool_decide as Hk; (split; [done | by intros [_ ?]]).
Qed.

Lemma get_tables_set_tables e (names : list string) :
  get_tables (set_tables e names) = VArr (VStr <$> names).
Proof. destruct e; simpl; [done|]. by rewrite lookup_insert_eq. Qed.

Lemma refresh_metadata_get_metadata data :
  own_get (refresh_metadata data) "_metadata"
  = (λ e, set_tables e (table_keys data)) <$> own_get data "_metadata".
Proof.
  unfold refresh_metadata. rewrite doc_get_metadata.
  destruct (own_get data "_metadata") as [e|] eqn:He; simpl.
  - apply own_get_set_eq.
  - done.
Qed.

Lemma refresh_metadata_get_other data k :
  k ≠ "_metadata" → own_get (refresh_metadata data) k = own_get data k.
Proof.
  intros Hk. unfold refresh_metadata. rewrite doc_get_metadata.
  destruct (own_get data "_metadata"); [|done].
  by rewrite own_get_set_ne.
Qed.

Lemma refresh_metadata_table_keys data :
  table_keys (refresh_metadata data) = table_keys data.
Proof.
  unfold refresh_metadata. rewrite doc_get_metadata.
  destruct (own_get data "_metadata") as [e|] eqn:He; [|done].
  unfold table_keys, Object_keys. by rewrite own_set_keys.
Qed.

(** After the refresh, a [_metadata] entry records the table names. *)
Lemma refresh_metadata_consistent data e :
  own_get (refresh_metadata data) "_metadata" = Some e →
  get_tables e = VArr (VStr <$> listTables (refresh_metadata data)).
Proof.
  rewrite refresh_metadata_get_metadata. unfold listTables.
  rewrite refresh_metadata_table_keys.
  destruct (own_get data "_metadata"); intros; simplify_eq/=.
  apply get_tables_set_tables.
Qed.

Lemma listTables_elem data k :
  k ∈ listTables data ↔ is_Some (own_get data k) ∧ k ≠ "_metadata".
Proof.
  unfold listTables, table_keys.
  rewrite list_elem_of_filter, Object_keys_elem.
  split; intros [? ?]; by split.
Qed.

Lemma createTable_eq tableName initialData data :
  createTable tableName initialData data
  = (Return (),
     refresh_metadata
       (own_set data tableName (EArray (default [] initialData) None))).
Proof. reflexivity. Qed.

Lemma dropTable_eq tableName data :
  dropTable tableName data
  = (Return (), refresh_metadata (own_delete data tableName)).
Proof. reflexivity. Qed.

(** A document that has [_metadata] keeps it through [createTable] and
    through [dropTable] of any other name. *)
Lemma metadata_entry_kept tableName initialData data :
  is_Some (own_get data "_metadata") →
  is_Some (own_get (createTable tableName initialData data).2 "_metadata")
  ∧ (tableName ≠ "_metadata" →
     is_Some (own_get (dropTable tableName data).2 "_metadata")).
Proof.
  intros Hm. rewrite createTable_eq, dropTable_eq. simpl.
  rewrite !refresh_metadata_get_metadata. split.
  - destruct (decide (tableName = "_metadata")) as [->|Hne].
    + by rewrite own_get_set_eq.
    + rewrite own_get_set_ne by done. by apply fmap_is_Some.
  - intros Hne. rewrite own_get_delete_ne by done. by apply fmap_is_Some.
Qed.

Lemma ensureTable_undefined tableName data :
  doc_get data tableName = Undefined →
  ensureTable tableName data
  = Throw (Error ("Table '" +:+ tableName
                    +:+ "' does not exist. Use createTable() first.")).
Proof. unfold ensureTable. by intros ->. Qed.

Lemma ensureTable_defined tableName data :
  doc_get data tableName ≠ Undefined → ensureTable tableName data = Return ().
Proof. unfold ensureTable. by destruct (doc_get data tableName). Qed.

(** On a name that reads as [undefined], every operation of the handle
    raises the error of [ensureTable], and the mutating ones leave the
    document as it was. *)
Lemma undefined_table_operations_throw tableName data :
  doc_get data tableName = Undefined →
  let err := Error ("Table '" +:+ tableName
                      +:+ "' does not exist. Use createTable() first.") in
  let t := table tableName in
  t.(getAll) data = Throw err
  ∧ (∀ id, t.(getById) id data = Throw err)
  ∧ (∀ p, t.(find) p data = Throw err)
  ∧ (∀ p, t.(findOne) p data = Throw err)
  ∧ (∀ item, t.(add) item data = (Throw err, data))
  ∧ (∀ id updates, t.(update) id updates data = (Throw err, data))
  ∧ (∀ id, t.(remove) id data = (Throw err, data))
  ∧ t.(count) data = Throw err
  ∧ t.(clear) data = (Throw err, data)
  ∧ (∀ R (callback : jsref → R), t.(query) R callback data = Throw err).
Proof.
  intros H. simpl. rewrite (ensureTable_undefined _ _ H). repeat split.
Qed.

End MultiTableFacts.

Section MultiTableClaims.
Import MultiTable.
Implicit Types (data : document) (tableName k : string) (e : entry).

(** [update] through a table handle on a record that is found and whose id
    the update keeps: the merged record takes the place of the old one and
    is the one returned. *)
Lemma table_update_matched_keeping_id tableName id (updates : record) data
    (l1 l2 : list record) (old : record) (tables : option (list string)) :
  own_get data tableName = Some (EArray (l1 ++ old :: l2) tables) →
  Forall (λ y, has_id id y = false) l1 → has_id id old = true →
  has_id id (spread old updates) = true →
  (table tableName).(update) id updates data
  = (Return (Some (spread old updates)),
     own_set data tableName
       (EArray (l1 ++ spread old updates :: l2) tables)).
Proof.
  intros Hown Hno Hold Hnew. simpl.
  rewrite ensureTable_defined by (by rewrite (doc_get_own _ _ _ Hown)).
  unfold db_update. rewrite (doc_get_own _ _ _ Hown). simpl.
  rewrite findIndex_first by done.
  rewrite bool_decide_eq_true_2 by lia.
  rewrite Nat2Z.id, list_lookup_middle by done. simpl.
  rewrite set_first.
  rewrite (doc_get_own _ _ _ (own_get_set_eq data tableName _)). simpl.
  by rewrite find_first.
Qed.

(** C1, the failing case: an update that changes the [id] field.  The
    record found under id 1 is merged and stored, but the value returned is
    looked up again under the old id, so the call resolves to [undefined]
    instead of the merged record; single-collection and multi-table store
    alike. *)
Theorem update_changing_id_returns_undefined (now : string) :
  Database.update (IdNum 1) {[ "id" := VNum 2 ]}
    [ {[ "id" := VNum 1; "name" := VStr "A" ]} ]
  = (None, [ {[ "id" := VNum 2; "name" := VStr "A" ]} ])
  ∧ (table "users").(update) (IdNum 1) {[ "id" := VNum 2 ]}
      (createMultiTableDatabase None now
         [ ("users", [ {[ "id" := VNum 1; "name" := VStr "A" ]} ]) ])
    = (Return None,
       createMultiTableDatabase None now
         [ ("users", [ {[ "id" := VNum 2; "name" := VStr "A" ]} ]) ]).
Proof. split; vm_compute; reflexivity. Qed.

(** C2, the failing case: a name the document does not have but every
    object inherits from [Object.prototype].  On a new database without
    tables, [data['constructor']] and [data['toString']] are functions,
    hence truthy: [ensureTable] lets the call through, [getAll] and
    [count] return, and [clear] adds the key to the document. *)
Theorem inherited_name_passes_ensureTable (now : string) :
  own_get (createMultiTableDatabase None now []) "constructor" = None
  ∧ own_get (createMultiTableDatabase None now []) "toString" = None
  ∧ (table "constructor").(getAll) (createMultiTableDatabase None now [])
    = Return (Inherited "constructor")
  ∧ (table "constructor").(count) (createMultiTableDatabase None now [])
    = Return (VNum 1)
  ∧ (table "toString").(clear) (createMultiTableDatabase None now [])
    = (Return (),
       createMultiTableDatabase None now [] ++ [("toString", EArray [] None)]).
Proof. repeat split. Qed.

(** C8: the scenario on a new multi-table database. *)
Theorem users_scenario (now : string) :
  let db0 := createMultiTableDatabase None now [] in
  let db1 := (createTable "users" (Some []) db0).2 in
  let db2 := ((table "users").(add)
                {[ "id" := VNum 1; "name" := VStr "A" ]} db1).2 in
  let db3 := ((table "users").(add)
                {[ "id" := VNum 2; "name" := VStr "B" ]} db2).2 in
  let db4 := ((table "users").(update) (IdNum 1)
                {[ "name" := VStr "A2" ]} db3).2 in
  (table "users").(getAll) db4
  = Return (Own (EArray [ {[ "id" := VNum 1; "name" := VStr "A2" ]};
                          {[ "id" := VNum 2; "name" := VStr "B" ]} ] None)).
Proof. vm_compute. reflexivity. Qed.



(** C3, as stated, fails: [dropTable('_metadata')] deletes the metadata
    entry, after which the guard [if (data._metadata)] skips the update.
    The document is left with the table [users] and without any
    [_metadata.tables]. *)
Lemma dropTable_metadata_leaves_no_table_list :
  ¬ ∃ e,
      own_get
        (dropTable "_metadata"
           (createMultiTableDatabase None "2024-01-01T00:00:00.000Z"
              [ ("users", []) ])).2 "_metadata" = Some e
      ∧ get_tables e
        = VArr (VStr <$>
                  listTables
                    (dropTable "_metadata"
                       (createMultiTableDatabase None
                          "2024-01-01T00:00:00.000Z" [ ("users", []) ])).2).
Proof. intros (e & He & _). vm_compute in He. discriminate He. Qed.

(** C3 (amended): after every completed [createTable] or [dropTable] that
    leaves the document with a [_metadata] entry, [_metadata.tables] is what
    [listTables] returns, and that is the list of the top-level keys of the
    document other than [_metadata]. *)
Theorem metadata_tables_after_table_change tableName
    (initialData : option (list record)) data data' e :
  data' = (createTable tableName initialData data).2
  ∨ data' = (dropTable tableName data).2 →
  own_get data' "_metadata" = Some e →
  get_tables e = VArr (VStr <$> listTables data')
  ∧ ∀ k, k ∈ listTables data' ↔ is_Some (own_get data' k) ∧ k ≠ "_metadata".
Proof.
  intros Hop He. split; [|apply listTables_elem].
  destruct Hop as [-> | ->]; revert He;
    [rewrite createTable_eq | rewrite dropTable_eq]; simpl;
    apply refresh_metadata_consistent.
Qed.

Lemma metadata_tables_after_table_change_witness :
  ((createTable "orders" None
      (createMultiTableDatabase None "2024-01-01T00:00:00.000Z"
         [ ("users", []) ])).2
   = (createTable "orders" None
        (createMultiTableDatabase None "2024-01-01T00:00:00.000Z"
           [ ("users", []) ])).2
   ∨ (createTable "orders" None
        (createMultiTableDatabase None "2024-01-01T00:00:00.000Z"
           [ ("users", []) ])).2
     = (dropTable "orders"
          (createMultiTableDatabase None "2024-01-01T00:00:00.000Z"
             [ ("users", []) ])).2)
  ∧ own_get
      (createTable "orders" None
         (createMultiTableDatabase None "2024-01-01T00:00:00.000Z"
            [ ("users", []) ])).2 "_metadata"
    = Some (EObject {[ "created" := VStr "2024-01-01T00:00:00.000Z";
                       "version" := VStr "1.0.0";
                       "tables" := VArr [VStr "users"; VStr "orders"] ]})
  ∧ get_tables
      (EObject {[ "created" := VStr "2024-01-01T00:00:00.000Z";
                  "version" := VStr "1.0.0";
                  "tables" := VArr [VStr "users"; VStr "orders"] ]})
    = VArr (VStr <$>
              listTables
                (createTable "orders" None
                   (createMultiTableDatabase None "2024-01-01T00:00:00.000Z"
                      [ ("users", []) ])).2).
Proof.
  pose proof (metadata_tables_after_table_change "orders" None
                (createMultiTableDatabase None "2024-01-01T00:00:00.000Z"
                   [ ("users", []) ])
                _ _ (or_introl eq_refl) eq_refl) as [H _].
  split; [left; reflexivity|]. split; [reflexivity | exact H].
Defined.

(** C10, as stated, fails on a document without [_metadata] (here: after
    [dropTable('_metadata')]): dropping the absent name [orders] succeeds,
    but no [_metadata.tables] is computed. *)
Lemma dropTable_absent_name_without_metadata :
  own_get
    (dropTable "_metadata"
       (createMultiTableDatabase None "2024-01-01T00:00:00.000Z"
          [ ("users", []) ])).2 "orders" = None
  ∧ ¬ ∃ e,
        own_get
          (dropTable "orders"
             (dropTable "_metadata"
                (createMultiTableDatabase None "2024-01-01T00:00:00.000Z"
                   [ ("users", []) ])).2).2 "_metadata" = Some e.
Proof. split; [reflexivity|]. intros (e & He). vm_compute in He. discriminate He. Qed.

(** C10 (amended): [dropTable] of a name that is no key of the document
    returns without raising and keeps every table as it was; when the
    document has a [_metadata] entry, its [tables] field is set to the list
    of the non-metadata keys, and without such an entry the document is left
    unchanged. *)
Theorem dropTable_absent_name tableName data :
  own_get data tableName = None →
  ∃ data',
    dropTable tableName data = (Return (), data')
    ∧ (∀ k, k ≠ "_metadata" → own_get data' k = own_get data k)
    ∧ listTables data' = listTables data
    ∧ (∀ e, own_get data "_metadata" = Some e →
            own_get data' "_metadata"
            = Some (set_tables e (listTables data'))
            ∧ get_tables (set_tables e (listTables data'))
              = VArr (VStr <$> listTables data'))
    ∧ (own_get data "_metadata" = None → data' = data).
Proof.
  intros Habsent. exists (refresh_metadata data).
  rewrite dropTable_eq, own_delete_absent by done.
  split; [done|]. split; [apply refresh_metadata_get_other|].
  unfold listTables. rewrite refresh_metadata_table_keys.
  split; [done|]. split.
  - intros e He. rewrite refresh_metadata_get_metadata, He.
    split; [done | apply get_tables_set_tables].
  - intros Hnone. unfold refresh_metadata.
    by rewrite doc_get_metadata, Hnone.
Qed.

Lemma dropTable_absent_name_witness :
  own_get (createMultiTableDatabase None "2024-01-01T00:00:00.000Z"
             [ ("users", []) ]) "orders" = None
  ∧ ∃ data',
      dropTable "orders"
        (createMultiTableDatabase None "2024-01-01T00:00:00.000Z"
           [ ("users", []) ])
      = (Return (), data')
      ∧ listTables data' = ["users"].
Proof.
  assert (H : own_get (createMultiTableDatabase None
                         "2024-01-01T00:00:00.000Z" [ ("users", []) ])
                "orders" = None) by reflexivity.
  split; [exact H|].
  destruct (dropTable_absent_name _ _ H) as (data' & Hd & _ & Hl & _).
  exists data'. split; [exact Hd|]. rewrite Hl. reflexivity.
Defined.

End MultiTableClaims.

(** ** The cases of [database.test.ts] and of the examples, replayed *)

Section Replayed.
Import MultiTable.

(** "should update items" *)
Example test_update_items :
  let item : record :=
    {[ "id" := VNum 1; "name" := VStr "Test Item"; "value" := VNum 10 ]} in
  let db := (Database.add item (Database.createDatabase None None)).2 in
  (Database.update (IdNum 1) {[ "value" := VNum 20 ]} db).1
  = Some {[ "id" := VNum 1; "name" := VStr "Test Item"; "value" := VNum 20 ]}
  ∧ (Database.update (IdNum 999) {[ "value" := VNum 30 ]} db).1 = None.
Proof. split; vm_compute; reflexivity. Qed.

(** "should remove items" *)
Example test_remove_items :
  let item : record := {[ "id" := VNum 1; "name" := VStr "Test Item" ]} in
  let db := (Database.add item (Database.createDatabase None None)).2 in
  Database.remove (IdNum 1) db = (Some item, [])
  ∧ Database.count (Database.remove (IdNum 1) db).2 = 0
  ∧ (Database.remove (IdNum 999) (Database.remove (IdNum 1) db).2).1 = None.
Proof. repeat split; vm_compute; reflexivity. Qed.

(** A run with an unsuccessful [remove]: three calls, one record left. *)
Example test_count_run :
  let calls := [ Database.Add {[ "id" := VNum 1 ]};
                 Database.Remove (IdNum 2);
                 Database.Add {[ "id" := VNum 2 ]};
                 Database.Remove (IdNum 1) ] in
  Database.adds calls = 2
  ∧ Database.successful_removes calls (Database.createDatabase None None) = 1
  ∧ Database.count (Database.run calls (Database.createDatabase None None))
    = 1.
Proof. repeat split. Qed.

(** [createTable('a')], [createTable('b')], [dropTable('a')]: [listTables]
    returns [['b']], and so does [_metadata.tables]. *)
Example test_listTables (now : string) :
  let db0 := createMultiTableDatabase None now [] in
  let db1 := (createTable "a" None db0).2 in
  let db2 := (createTable "b" None db1).2 in
  let db3 := (dropTable "a" db2).2 in
  listTables db3 = ["b"]
  ∧ get_tables <$> own_get db3 "_metadata" = Some (VArr [VStr "b"]).
Proof. split; vm_compute; reflexivity. Qed.

(** After [dropTable('x')] the handle of [x] raises; after
    [createTable('x')] it works on an empty table. *)
Example test_drop_then_create (now : string) :
  let db0 := createMultiTableDatabase None now [ ("x", []) ] in
  let db1 := (dropTable "x" db0).2 in
  let db2 := (createTable "x" None db1).2 in
  (table "x").(count) db1
  = Throw (Error "Table 'x' does not exist. Use createTable() first.")
  ∧ (table "x").(count) db2 = Return (VNum 0).
Proof. split; vm_compute; reflexivity. Qed.

(** Keys that are array indices are listed first, in numeric order. *)
Example test_Object_keys :
  Object_keys [ ("b", 1); ("10", 2); ("a", 3); ("9", 4); ("01", 5) ]
  = [ "9"; "10"; "b"; "a"; "01" ].
Proof. vm_compute. reflexivity. Qed.

End Replayed.

(** * Further properties of the operations *)

(** ** The single-collection database *)

Section DatabaseMore.
Implicit Types (data : list record) (item r : record) (id : ident).

(** Two ids that match the same record are the same id. *)
Lemma has_id_other id id' item :
  has_id id item = true → id ≠ id' → has_id id' item = false.
Proof.
  unfold has_id. destruct (get_id item), id, id'; simpl; try done.
  - rewrite bool_decide_eq_true. intros -> Hne.
    apply bool_decide_eq_false_2. congruence.
  - rewrite bool_decide_eq_true. intros -> Hne.
    apply bool_decide_eq_false_2. congruence.
Qed.

(** [find] skips alike over two arrays that differ in one element the
    predicate rejects. *)
Lemma find_replace_rejected {A} (p : A → bool) (l1 l2 : list A) (a b : A) :
  p a = false → p b = false →
  Array_find p (l1 ++ a :: l2) = Array_find p (l1 ++ b :: l2).
Proof.
  intros Ha Hb. unfold Array_find.
  induction l1 as [|x l1 IH]; simpl.
  - by rewrite Ha, Hb.
  - by rewrite IH.
Qed.

Lemma spread_idemp (item updates : record) :
  spread (spread item updates) updates = spread item updates.
Proof. unfold spread. by rewrite (assoc_L (∪)), (idemp_L (∪)). Qed.

(** X1: [remove(id)] returns exactly the record [getById(id)] finds, and
    the collection loses one record when there is one, none otherwise. *)
Theorem remove_returns_getById id data :
  (Database.remove id data).1 = Database.getById id data
  ∧ Database.count (Database.remove id data).2
    = Database.count data
      - (if Database.getById id data is Some _ then 1 else 0).
Proof.
  unfold Database.getById.
  destruct (findIndex_cases (has_id id) data)
    as [[_ Hno] | (l1 & x & l2 & -> & Hno & Hx & _)].
  - rewrite remove_unmatched, find_no_match by done. simpl. split; [done|lia].
  - rewrite remove_matched, find_first by done. simpl. split; [done|].
    unfold Database.count. rewrite !length_app. simpl. lia.
Qed.

(** X2: [remove(id)] takes out the first record with the id only: the
    records before and after it keep their order, and a later record with
    the same id is what [getById(id)] finds next. *)
Theorem remove_first_match_only id (l1 l2 : list record) (x : record) :
  Forall (λ y, has_id id y = false) l1 → has_id id x = true →
  Database.remove id (l1 ++ x :: l2) = (Some x, l1 ++ l2)
  ∧ Database.getById id (Database.remove id (l1 ++ x :: l2)).2
    = Database.getById id l2.
Proof.
  intros Hno Hx. rewrite remove_matched by done. split; [done|]. simpl.
  unfold Database.getById, Array_find.
  induction Hno as [|y l1 Hy _ IH]; simpl; [done|]. by rewrite Hy.
Qed.

Lemma remove_first_match_only_witness :
  Forall (λ y, has_id (IdNum 1) y = false) [ ({[ "id" := VNum 2 ]} : record) ]
  ∧ has_id (IdNum 1) {[ "id" := VNum 1; "name" := VStr "A" ]} = true
  ∧ Database.remove (IdNum 1)
      ([ {[ "id" := VNum 2 ]} ]
         ++ {[ "id" := VNum 1; "name" := VStr "A" ]}
         :: [ {[ "id" := VNum 1; "name" := VStr "B" ]} ])
    = (Some {[ "id" := VNum 1; "name" := VStr "A" ]},
       [ {[ "id" := VNum 2 ]} ] ++ [ {[ "id" := VNum 1; "name" := VStr "B" ]} ]).
Proof.
  assert (H1 : Forall (λ y, has_id (IdNum 1) y = false)
                 [ ({[ "id" := VNum 2 ]} : record) ]) by (repeat constructor).
  assert (H2 : has_id (IdNum 1) {[ "id" := VNum 1; "name" := VStr "A" ]}
               = true) by reflexivity.
  exact (conj H1 (conj H2
           (proj1 (remove_first_match_only _ _
                     [ {[ "id" := VNum 1; "name" := VStr "B" ]} ] _ H1 H2)))).
Defined.

(** X3: adding a record under an id the collection does not have and then
    removing that id gives the record back and restores the collection. *)
Theorem add_remove_round_trip r id data :
  get_id r = id_value id →
  Forall (λ x, has_id id x = false) data →
  Database.remove id (Database.add r data).2 = (Some r, data).
Proof.
  intros Hid Hno. unfold Database.add, Array_push. simpl.
  rewrite remove_matched by (done || by apply has_id_get_id).
  by rewrite app_nil_r.
Qed.

Lemma add_remove_round_trip_witness :
  get_id {[ "id" := VStr "u2"; "name" := VStr "B" ]} = id_value (IdStr "u2")
  ∧ Forall (λ x, has_id (IdStr "u2") x = false)
      [ {[ "id" := VStr "u1"; "name" := VStr "A" ]} ]
  ∧ Database.remove (IdStr "u2")
      (Database.add {[ "id" := VStr "u2"; "name" := VStr "B" ]}
         [ {[ "id" := VStr "u1"; "name" := VStr "A" ]} ]).2
    = (Some {[ "id" := VStr "u2"; "name" := VStr "B" ]},
       [ {[ "id" := VStr "u1"; "name" := VStr "A" ]} ]).
Proof.
  assert (H1 : get_id {[ "id" := VStr "u2"; "name" := VStr "B" ]}
               = id_value (IdStr "u2")) by reflexivity.
  assert (H2 : Forall (λ x, has_id (IdStr "u2") x = false)
                 [ {[ "id" := VStr "u1"; "name" := VStr "A" ]} ])
    by (repeat constructor).
  exact (conj H1 (conj H2 (add_remove_round_trip _ _ _ H1 H2))).
Defined.

(** X4: [update(id, updates)] with updates that do not mention [id], on
    a collection whose first record with the id is [old]: the call returns
    the merged record, which takes the place of [old]; the records around it
    are untouched; a field the updates name has the new value, any other
    field the value it had in [old]. *)
Theorem update_merges_in_place id (updates : record)
    (l1 l2 : list record) (old : record) :
  Forall (λ y, has_id id y = false) l1 → has_id id old = true →
  updates !! "id" = None →
  ∃ merged,
    Database.update id updates (l1 ++ old :: l2)
    = (Some merged, l1 ++ merged :: l2)
    ∧ (∀ k v, updates !! k = Some v → merged !! k = Some v)
    ∧ (∀ k, updates !! k = None → merged !! k = old !! k).
Proof.
  intros Hno Hold Hid. exists (spread old updates). split.
  - apply update_matched_keeping_id; [done..|].
    by rewrite spread_keeps_id.
  - split; [apply spread_overlaid | apply spread_preserved].
Qed.

Lemma update_merges_in_place_witness :
  Forall (λ y, has_id (IdNum 1) y = false) ([] : list record)
  ∧ has_id (IdNum 1)
      {[ "id" := VNum 1; "name" := VStr "Test Item"; "value" := VNum 10 ]}
    = true
  ∧ ({[ "value" := VNum 20 ]} : record) !! "id" = None
  ∧ ∃ merged,
      Database.update (IdNum 1) {[ "value" := VNum 20 ]}
        ([] ++ {[ "id" := VNum 1; "name" := VStr "Test Item";
                  "value" := VNum 10 ]} :: [])
      = (Some merged, [] ++ merged :: [])
      ∧ merged !! "name" = Some (VStr "Test Item").
Proof.
  assert (H1 : Forall (λ y, has_id (IdNum 1) y = false) ([] : list record))
    by constructor.
  assert (H2 : has_id (IdNum 1)
                 {[ "id" := VNum 1; "name" := VStr "Test Item";
                    "value" := VNum 10 ]} = true) by reflexivity.
  assert (H3 : ({[ "value" := VNum 20 ]} : record) !! "id" = None)
    by reflexivity.
  split; [exact H1|]. split; [exact H2|]. split; [exact H3|].
  destruct (update_merges_in_place _ _ _ [] _ H1 H2 H3)
    as (merged & Hu & _ & Hkeep).
  exists merged. split; [exact Hu|].
  rewrite (Hkeep "name") by reflexivity. reflexivity.
Defined.

(** X5: whatever the id and the updates, [update] keeps the number of
    records and every record except the one at the index [findIndex]
    returns. *)
Theorem update_touches_one_index id (updates : record) data :
  Database.count (Database.update id updates data).2 = Database.count data
  ∧ ∀ i : nat,
      Z.of_nat i ≠ Array_findIndex (has_id id) data →
      (Database.update id updates data).2 !! i = data !! i.
Proof.
  unfold Database.update, Database.count, Array_set. simpl.
  case_bool_decide as Hidx; [|done].
  rewrite length_insert. split; [done|]. intros i Hi.
  apply list_lookup_insert_ne. intros <-.
  destruct (findIndex_range (has_id id) data) as [?|[? _]]; [done|].
  apply Hi. by rewrite Z2Nat.id.
Qed.

(** X6: an update that does not mention [id] cannot change what
    [getById] finds under another id. *)
Theorem update_other_id_unaffected id id' (updates : record) data :
  id ≠ id' → updates !! "id" = None →
  Database.getById id' (Database.update id updates data).2
  = Database.getById id' data.
Proof.
  intros Hne Hid.
  destruct (findIndex_cases (has_id id) data)
    as [[_ Hno] | (l1 & old & l2 & -> & Hno & Hold & _)].
  - by rewrite update_unmatched.
  - rewrite update_matched_keeping_id
      by (done || by rewrite spread_keeps_id).
    simpl. unfold Database.getById. apply find_replace_rejected.
    + apply (has_id_other id); [by rewrite spread_keeps_id | done].
    + by apply (has_id_other id).
Qed.

Lemma update_other_id_unaffected_witness :
  IdNum 1 ≠ IdNum 2
  ∧ ({[ "name" := VStr "A2" ]} : record) !! "id" = None
  ∧ Database.getById (IdNum 2)
      (Database.update (IdNum 1) {[ "name" := VStr "A2" ]}
         [ {[ "id" := VNum 1; "name" := VStr "A" ]};
           {[ "id" := VNum 2; "name" := VStr "B" ]} ]).2
    = Database.getById (IdNum 2)
        [ {[ "id" := VNum 1; "name" := VStr "A" ]};
          {[ "id" := VNum 2; "name" := VStr "B" ]} ].
Proof.
  assert (H1 : IdNum 1 ≠ IdNum 2) by discriminate.
  assert (H2 : ({[ "name" := VStr "A2" ]} : record) !! "id" = None)
    by reflexivity.
  exact (conj H1 (conj H2 (update_other_id_unaffected _ _ _ _ H1 H2))).
Defined.

(** A list of matching records that is a sublist of the collection is a
    sublist of what [filter] keeps. *)
Lemma filter_keeps_matching_sublists {A} (p : A → bool) (l arr : list A) :
  sublist l arr → Forall (λ x, p x = true) l →
  sublist l (Array_filter p arr).
Proof.
  unfold Array_filter. induction 1 as [|x l1 l2 _ IH|x l1 l2 _ IH];
    intros Hall; simpl.
  - constructor.
  - apply Forall_cons_1 in Hall as [-> Hall]. constructor. by apply IH.
  - destruct (p x); [constructor|]; by apply IH.
Qed.

Lemma filter_is_sublist {A} (p : A → bool) (arr : list A) :
  sublist (Array_filter p arr) arr.
Proof.
  unfold Array_filter. induction arr as [|y arr IH]; simpl; [constructor|].
  destruct (p y); by constructor.
Qed.

Lemma filter_all_match {A} (p : A → bool) (arr : list A) :
  Forall (λ x, p x = true) (Array_filter p arr).
Proof.
  unfold Array_filter. induction arr as [|y arr IH]; simpl; [constructor|].
  destruct (p y) eqn:Hy; [by constructor | done].
Qed.

(** Being the largest sublist of matching records determines the result of
    [find]: no other list has the three properties. *)
Lemma find_determined (predicate : record → bool) (data result : list record) :
  sublist result data →
  Forall (λ x, predicate x = true) result →
  (∀ l, sublist l data → Forall (λ x, predicate x = true) l →
        sublist l result) →
  result = Database.find predicate data.
Proof.
  intros Hsub Hall Hmax. unfold Database.find.
  apply (anti_symm sublist).
  - by apply filter_keeps_matching_sublists.
  - apply Hmax; [apply filter_is_sublist | apply filter_all_match].
Qed.

(** X7: [find(predicate)] returns exactly the records that satisfy the
    predicate, in the order of the collection and as often as they occur:
    its result is a sublist of the collection, all of its records satisfy
    the predicate, and it is the largest such list (every sublist of the
    collection made of matching records is a sublist of the result); so a
    record belongs to it exactly when it is a matching record of the
    collection, and the records [find(predicate)] and [find(not predicate)]
    return add up to the whole collection.  [findOne] is the first of the
    matching records. *)
Theorem find_selects_in_order (predicate : record → bool) data :
  sublist (Database.find predicate data) data
  ∧ Forall (λ x, predicate x = true) (Database.find predicate data)
  ∧ (∀ l, sublist l data → Forall (λ x, predicate x = true) l →
          sublist l (Database.find predicate data))
  ∧ (∀ x, x ∈ Database.find predicate data ↔ x ∈ data ∧ predicate x = true)
  ∧ (length (Database.find predicate data)
     + length (Database.find (λ x, negb (predicate x)) data)
     = length data)%nat
  ∧ Database.findOne predicate data = head (Database.find predicate data).
Proof.
  unfold Database.find, Database.findOne.
  split; [|split; [|split; [|split; [|split]]]].
  - apply filter_is_sublist.
  - apply filter_all_match.
  - intros l. apply filter_keeps_matching_sublists.
  - intros x. unfold Array_filter. rewrite !list_elem_of_In. apply filter_In.
  - unfold Array_filter. induction data as [|y data IH]; simpl; [done|].
    destruct (predicate y); simpl; lia.
  - apply find_head_filter.
Qed.

(** X8: repeating an update that does not mention [id] changes nothing
    more: same result, same collection. *)
Theorem update_idempotent id (updates : record) data :
  updates !! "id" = None →
  Database.update id updates (Database.update id updates data).2
  = Database.update id updates data.
Proof.
  intros Hid.
  destruct (findIndex_cases (has_id id) data)
    as [[_ Hno] | (l1 & old & l2 & -> & Hno & Hold & _)].
  - rewrite (update_unmatched id updates data) by done. simpl.
    by rewrite update_unmatched.
  - assert (Hnew : has_id id (spread old updates) = true)
      by (by rewrite spread_keeps_id).
    rewrite (update_matched_keeping_id _ _ l1 l2 old) by done. simpl.
    rewrite update_matched_keeping_id by (done || by rewrite spread_keeps_id).
    by rewrite spread_idemp.
Qed.

Lemma update_idempotent_witness :
  ({[ "value" := VNum 20 ]} : record) !! "id" = None
  ∧ Database.update (IdNum 1) {[ "value" := VNum 20 ]}
      (Database.update (IdNum 1) {[ "value" := VNum 20 ]}
         [ {[ "id" := VNum 1; "value" := VNum 10 ]} ]).2
    = Database.update (IdNum 1) {[ "value" := VNum 20 ]}
        [ {[ "id" := VNum 1; "value" := VNum 10 ]} ].
Proof.
  assert (H : ({[ "value" := VNum 20 ]} : record) !! "id" = None)
    by reflexivity.
  exact (conj H (update_idempotent _ _ _ H)).
Defined.

End DatabaseMore.

(** ** Timestamps *)

Section TimestampsMore.
Import Timestamps.

(** X9: [withTimestamps] sets [createdAt] and [updatedAt] to the time of
    the call, also over fields of these names in the data, and a later
    [updateTimestamp] moves [updatedAt] only: [createdAt] and every other
    field of the data are kept. *)
Theorem updateTimestamp_after_withTimestamps (data : record)
    (created updated : string) :
  let stamped := withTimestamps data created in
  stamped !! "createdAt" = Some (VStr created)
  ∧ stamped !! "updatedAt" = Some (VStr created)
  ∧ updateTimestamp stamped updated !! "createdAt" = Some (VStr created)
  ∧ updateTimestamp stamped updated !! "updatedAt" = Some (VStr updated)
  ∧ ∀ k, k ≠ "createdAt" → k ≠ "updatedAt" →
         stamped !! k = data !! k
         ∧ updateTimestamp stamped updated !! k = data !! k.
Proof.
  unfold withTimestamps, updateTimestamp.
  assert (Hc : ∀ base, spread base {[ "createdAt" := VStr created;
                                      "updatedAt" := VStr created ]}
                 !! "createdAt" = Some (VStr created))
    by (intros; by apply spread_overlaid).
  assert (Hu : ∀ base t, spread base {[ "updatedAt" := VStr t ]}
                 !! "updatedAt" = Some (VStr t))
    by (intros; by apply spread_overlaid).
  simpl. split; [apply Hc|]. split; [by apply spread_overlaid|].
  split; [by rewrite spread_preserved|]. split; [apply Hu|].
  intros k Hk1 Hk2.
  assert (spread data {[ "createdAt" := VStr created;
                         "updatedAt" := VStr created ]} !! k = data !! k)
    as Hk.
  { apply spread_preserved.
    rewrite lookup_insert_ne by done. by rewrite lookup_singleton_ne. }
  split; [done|].
  rewrite spread_preserved by (by rewrite lookup_singleton_ne). done.
Qed.

End TimestampsMore.

(** ** The multi-table database *)

Section MultiTableMore.
Import MultiTable.
Implicit Types (data : document) (tableName k : string) (e : entry).

Lemma ensureTable_own tableName data e :
  own_get data tableName = Some e → ensureTable tableName data = Return ().
Proof.
  intros H. apply ensureTable_defined. by rewrite (doc_get_own _ _ _ H).
Qed.

(** The entry [createTable] leaves under the name. *)
Lemma createTable_own_entry tableName (initialData : option (list record))
    data :
  ∃ tables,
    own_get (createTable tableName initialData data).2 tableName
    = Some (EArray (default [] initialData) tables).
Proof.
  rewrite createTable_eq. simpl.
  destruct (decide (tableName = "_metadata")) as [->|Hne].
  - rewrite refresh_metadata_get_metadata, own_get_set_eq. simpl.
    by eexists.
  - rewrite refresh_metadata_get_other, own_get_set_eq by done. by eexists.
Qed.

Lemma table_add_own tableName (item : record) data
    (rows : list record) (tables : option (list string)) :
  own_get data tableName = Some (EArray rows tables) →
  (table tableName).(add) item data
  = (Return item,
     own_set data tableName (EArray (rows ++ [item]) tables)).
Proof.
  intros Hown. simpl. rewrite (ensureTable_own _ _ _ Hown).
  unfold db_update. by rewrite (doc_get_own _ _ _ Hown).
Qed.

Lemma table_getById_own tableName id data
    (rows : list record) (tables : option (list string)) :
  own_get data tableName = Some (EArray rows tables) →
  (table tableName).(getById) id data = Return (Array_find (has_id id) rows).
Proof.
  intros Hown. simpl. rewrite (ensureTable_own _ _ _ Hown).
  by rewrite (doc_get_own _ _ _ Hown).
Qed.

Lemma table_getAll_own tableName data e :
  own_get data tableName = Some e →
  (table tableName).(getAll) data = Return (Own e).
Proof.
  intros Hown. simpl. rewrite (ensureTable_own _ _ _ Hown).
  by rewrite (doc_get_own _ _ _ Hown).
Qed.

Lemma table_count_own tableName data
    (rows : list record) (tables : option (list string)) :
  own_get data tableName = Some (EArray rows tables) →
  (table tableName).(count) data = Return (VNum (Z.of_nat (length rows))).
Proof.
  intros Hown. simpl. rewrite (ensureTable_own _ _ _ Hown).
  by rewrite (doc_get_own _ _ _ Hown).
Qed.

(** X10: after [dropTable(name)], for every name that is not one of the
    properties of [Object.prototype], [exists()] is false and every
    operation of the handle raises the table-does-not-exist error, the
    mutating ones without touching the document. *)
Theorem dropTable_then_operations_throw tableName data :
  tableName ∉ Object_prototype_names →
  let data' := (dropTable tableName data).2 in
  let err := Error ("Table '" +:+ tableName
                      +:+ "' does not exist. Use createTable() first.") in
  let t := table tableName in
  t.(exists_) data' = false
  ∧ t.(getAll) data' = Throw err
  ∧ (∀ id, t.(getById) id data' = Throw err)
  ∧ (∀ p, t.(find) p data' = Throw err)
  ∧ (∀ p, t.(findOne) p data' = Throw err)
  ∧ (∀ item, t.(add) item data' = (Throw err, data'))
  ∧ (∀ id updates, t.(update) id updates data' = (Throw err, data'))
  ∧ (∀ id, t.(remove) id data' = (Throw err, data'))
  ∧ t.(count) data' = Throw err
  ∧ t.(clear) data' = (Throw err, data')
  ∧ (∀ R (callback : jsref → R), t.(query) R callback data' = Throw err).
Proof.
  intros Hname data' err t.
  assert (Hundef : doc_get data' tableName = Undefined).
  { apply doc_get_undefined. split; [|done].
    unfold data'. rewrite dropTable_eq. simpl.
    destruct (decide (tableName = "_metadata")) as [->|Hne].
    - by rewrite refresh_metadata_get_metadata, own_get_delete_eq.
    - by rewrite refresh_metadata_get_other, own_get_delete_eq. }
  split.
  - unfold t. simpl. by rewrite Hundef.
  - apply (undefined_table_operations_throw _ _ Hundef).
Qed.

Lemma dropTable_then_operations_throw_witness :
  ("users" ∉ Object_prototype_names)
  ∧ (table "users").(count)
      (dropTable "users"
         (createMultiTableDatabase None "2024-01-01T00:00:00.000Z"
            [ ("users", []) ])).2
    = Throw (Error "Table 'users' does not exist. Use createTable() first.").
Proof.
  assert (H : "users" ∉ Object_prototype_names)
    by (apply (bool_decide_eq_false_1 ("users" ∈ Object_prototype_names));
        reflexivity).
  split; [exact H|].
  exact (proj1 (proj2 (proj2 (proj2 (proj2 (proj2 (proj2 (proj2 (proj2
           (dropTable_then_operations_throw "users"
              (createMultiTableDatabase None "2024-01-01T00:00:00.000Z"
                 [ ("users", []) ]) H)))))))))).
Defined.

(** X11: right after [createTable(name)] the table exists and is empty,
    whatever the name held before, and a record added through the handle is
    its only record. *)
Theorem createTable_then_add tableName (item : record) data :
  let data1 := (createTable tableName None data).2 in
  let t := table tableName in
  t.(exists_) data1 = true
  ∧ t.(count) data1 = Return (VNum 0)
  ∧ ∃ data2 tables,
      t.(add) item data1 = (Return item, data2)
      ∧ t.(getAll) data2 = Return (Own (EArray [item] tables))
      ∧ t.(count) data2 = Return (VNum 1).
Proof.
  intros data1 t.
  destruct (createTable_own_entry tableName None data) as [tables Hown].
  fold data1 in Hown. simpl in Hown. split; [|split].
  - unfold t. simpl. by rewrite (doc_get_own _ _ _ Hown).
  - unfold t. by rewrite (table_count_own _ _ _ _ Hown).
  - exists (own_set data1 tableName (EArray ([] ++ [item]) tables)), tables.
    unfold t. rewrite (table_add_own _ _ _ _ _ Hown). split; [done|].
    pose proof (own_get_set_eq data1 tableName
                  (EArray ([] ++ [item]) tables)) as Hown2.
    rewrite (table_getAll_own _ _ _ Hown2).
    by rewrite (table_count_own _ _ _ _ Hown2).
Qed.

Lemma table_getAll_same_entry k data data' :
  own_get data' k = own_get data k →
  (table k).(getAll) data' = (table k).(getAll) data.
Proof. intros H. simpl. unfold ensureTable, doc_get. by rewrite H. Qed.

(** X12: [createTable] and [dropTable] leave every other table as it was:
    under any key other than the name and [_metadata], the document and the
    handle read what they read before.  (The name [__proto__] is left out:
    assigning to it is no plain write of a key.) *)
Theorem createTable_dropTable_other_tables tableName k
    (initialData : option (list record)) data :
  tableName ≠ "__proto__" → k ≠ tableName → k ≠ "_metadata" →
  own_get (createTable tableName initialData data).2 k = own_get data k
  ∧ own_get (dropTable tableName data).2 k = own_get data k
  ∧ (table k).(getAll) (createTable tableName initialData data).2
    = (table k).(getAll) data
  ∧ (table k).(getAll) (dropTable tableName data).2
    = (table k).(getAll) data.
Proof.
  intros _ Hk Hmeta.
  assert (H1 : own_get (createTable tableName initialData data).2 k
               = own_get data k).
  { rewrite createTable_eq. simpl.
    rewrite refresh_metadata_get_other by done.
    by rewrite own_get_set_ne. }
  assert (H2 : own_get (dropTable tableName data).2 k = own_get data k).
  { rewrite dropTable_eq. simpl.
    rewrite refresh_metadata_get_other by done.
    by rewrite own_get_delete_ne. }
  split; [done|]. split; [done|].
  split; by apply table_getAll_same_entry.
Qed.

Lemma createTable_dropTable_other_tables_witness :
  "orders" ≠ "__proto__" ∧ "users" ≠ "orders" ∧ "users" ≠ "_metadata"
  ∧ own_get
      (createTable "orders" None
         (createMultiTableDatabase None "2024-01-01T00:00:00.000Z"
            [ ("users", [ {[ "id" := VNum 1 ]} ]) ])).2 "users"
    = own_get
        (createMultiTableDatabase None "2024-01-01T00:00:00.000Z"
           [ ("users", [ {[ "id" := VNum 1 ]} ]) ]) "users".
Proof.
  assert (H0 : "orders" ≠ "__proto__") by discriminate.
  assert (H1 : "users" ≠ "orders") by discriminate.
  assert (H2 : "users" ≠ "_metadata") by discriminate.
  exact (conj H0 (conj H1 (conj H2
           (proj1 (createTable_dropTable_other_tables _ _ _ _ H0 H1 H2))))).
Defined.

(** X13: [listTables] after [createTable(name)] lists the name (unless it
    is [_metadata]) and the tables listed before; after [dropTable(name)] it
    lists the tables listed before except the name.  (The name [__proto__]
    is left out: assigning to it is no plain write of a key.) *)
Theorem listTables_after_table_change tableName k
    (initialData : option (list record)) data :
  tableName ≠ "__proto__" →
  (k ∈ listTables (createTable tableName initialData data).2
   ↔ k ≠ "_metadata" ∧ (k = tableName ∨ k ∈ listTables data))
  ∧ (k ∈ listTables (dropTable tableName data).2
     ↔ k ≠ tableName ∧ k ∈ listTables data).
Proof.
  intros _.
  rewrite createTable_eq, dropTable_eq. simpl. unfold listTables.
  rewrite !refresh_metadata_table_keys.
  change table_keys with listTables. rewrite !listTables_elem. split.
  - destruct (decide (tableName = k)) as [->|Hne].
    + rewrite own_get_set_eq. split.
      * intros [_ ?]. split; [done | by left].
      * intros [? _]. split; [by eexists | done].
    + rewrite own_get_set_ne by done. split.
      * intros [? ?]. split; [done | by right].
      * intros [? [? | [? ?]]]; [by subst | done].
  - destruct (decide (tableName = k)) as [->|Hne].
    + rewrite own_get_delete_eq. split.
      * by intros [[? ?] _].
      * by intros [? _].
    + rewrite own_get_delete_ne by done. split.
      * intros [? ?]. by split.
      * by intros [_ ?].
Qed.

Lemma listTables_after_table_change_witness :
  "orders" ≠ "__proto__"
  ∧ ("orders" ∈ listTables
       (createTable "orders" None
          (createMultiTableDatabase None "2024-01-01T00:00:00.000Z"
             [ ("users", []) ])).2
     ↔ "orders" ≠ "_metadata"
       ∧ ("orders" = "orders"
          ∨ "orders" ∈ listTables
              (createMultiTableDatabase None "2024-01-01T00:00:00.000Z"
                 [ ("users", []) ]))).
Proof.
  assert (H : "orders" ≠ "__proto__") by discriminate.
  exact (conj H (proj1 (listTables_after_table_change _ _ _ _ H))).
Defined.

(** X14: a handle bound to a key that holds a plain object, as
    [_metadata] does: the existence check passes, [getAll] returns the
    object, the array methods are missing, so [getById], [find], [findOne],
    [add], [update] and [remove] raise a [TypeError] and leave the document
    alone, [count] reads the [length] field of the object, and [clear]
    replaces the object by an empty array. *)
Theorem table_operations_on_object_entry tableName (props : record) data :
  own_get data tableName = Some (EObject props) →
  let t := table tableName in
  t.(getAll) data = Return (Own (EObject props))
  ∧ (∀ id, t.(getById) id data = Throw TypeError)
  ∧ (∀ p, t.(find) p data = Throw TypeError)
  ∧ (∀ p, t.(findOne) p data = Throw TypeError)
  ∧ (∀ item, t.(add) item data = (Throw TypeError, data))
  ∧ (∀ id updates, t.(update) id updates data = (Throw TypeError, data))
  ∧ (∀ id, t.(remove) id data = (Throw TypeError, data))
  ∧ t.(count) data = Return (default VUndefined (props !! "length"))
  ∧ t.(clear) data = (Return (), own_set data tableName (EArray [] None)).
Proof.
  intros Hown. simpl. rewrite (ensureTable_own _ _ _ Hown).
  unfold db_update. rewrite (doc_get_own _ _ _ Hown). repeat split.
Qed.

Lemma table_operations_on_object_entry_witness :
  own_get (createMultiTableDatabase None "2024-01-01T00:00:00.000Z" [])
    "_metadata"
  = Some (EObject {[ "created" := VStr "2024-01-01T00:00:00.000Z";
                     "version" := VStr "1.0.0";
                     "tables" := VArr [] ]})
  ∧ (table "_metadata").(add) {[ "id" := VNum 1 ]}
      (createMultiTableDatabase None "2024-01-01T00:00:00.000Z" [])
    = (Throw TypeError,
       createMultiTableDatabase None "2024-01-01T00:00:00.000Z" []).
Proof.
  assert (H : own_get
                (createMultiTableDatabase None "2024-01-01T00:00:00.000Z" [])
                "_metadata"
              = Some (EObject {[ "created" := VStr "2024-01-01T00:00:00.000Z";
                                 "version" := VStr "1.0.0";
                                 "tables" := VArr [] ]})) by reflexivity.
  split; [exact H|].
  exact (proj1 (proj2 (proj2 (proj2 (proj2
           (table_operations_on_object_entry _ _ _ H)))))
           {[ "id" := VNum 1 ]}).
Defined.

Lemma own_set_absent {A} (o : list (string * A)) k (v : A) :
  own_get o k = None → own_set o k v = o ++ [(k, v)].
Proof.
  induction o as [|[k' v'] o IH]; simpl; [done|].
  case_bool_decide as Hk; [done|]. intros Hnone. by rewrite IH.
Qed.

Lemma own_get_fmap {A B} (f : A → B) (o : list (string * A)) k :
  own_get (prod_map id f <$> o) k = f <$> own_get o k.
Proof.
  induction o as [|[k' v'] o IH]; simpl; [done|]. by case_bool_decide.
Qed.

Lemma keys_fmap {A B} (f : A → B) (o : list (string * A)) :
  (prod_map id f <$> o).*1 = o.*1.
Proof.
  induction o as [|[k' v'] o IH]; [done|]. rewrite !fmap_cons. by f_equal.
Qed.

Lemma ordered_keys_snoc (ks : list string) k :
  array_index k = None → ordered_keys (ks ++ [k]) = ordered_keys ks ++ [k].
Proof.
  intros Hk. unfold ordered_keys, index_keys.
  rewrite omap_app, filter_app. simpl. rewrite Hk. simpl.
  rewrite app_nil_r, (filter_singleton_True _ k []) by done.
  by rewrite (assoc_L (++)).
Qed.

Lemma filter_all_pass {A} (P : A → Prop) `{∀ x, Decision (P x)}
    (l : list A) :
  (∀ x, x ∈ l → P x) → filter P l = l.
Proof.
  induction l as [|x l IH]; intros Hall; [done|].
  rewrite filter_cons_True by (apply Hall; by left).
  rewrite IH; [done|]. intros y Hy. apply Hall. by right.
Qed.

(** X15: a database created on a new file from [initialTables] (an object
    without a [_metadata] key of its own) starts consistent: [listTables]
    returns the keys of [initialTables], [_metadata.tables] is the same
    list, and the handle of every initial table reads its initial
    records. *)
Theorem new_database_consistent (now : string)
    (initialTables : list (string * list record)) :
  own_get initialTables "_metadata" = None →
  let data := createMultiTableDatabase None now initialTables in
  listTables data = Object_keys initialTables
  ∧ get_tables <$> own_get data "_metadata"
    = Some (VArr (VStr <$> listTables data))
  ∧ ∀ k rows, own_get initialTables k = Some rows →
              (table k).(getAll) data = Return (Own (EArray rows None)).
Proof.
  intros Hmeta data.
  assert (Hkeys : listTables data = Object_keys initialTables).
  { unfold data, createMultiTableDatabase, JSONFilePreset, dbDefault. simpl.
    rewrite own_set_absent by (by rewrite own_get_fmap, Hmeta).
    unfold listTables, table_keys, Object_keys.
    rewrite fmap_app, keys_fmap. simpl.
    rewrite ordered_keys_snoc by reflexivity.
    rewrite filter_app.
    rewrite (filter_singleton_False _ "_metadata" [])
      by (intros Hne; by apply Hne).
    rewrite app_nil_r. apply filter_all_pass.
    intros k Hk ->. apply (Object_keys_elem initialTables) in Hk.
    rewrite Hmeta in Hk. by destruct Hk. }
  split; [done|]. split.
  - rewrite Hkeys. unfold data, createMultiTableDatabase, JSONFilePreset,
      dbDefault. simpl. by rewrite own_get_set_eq.
  - intros k rows Hk. apply table_getAll_own.
    unfold data, createMultiTableDatabase, JSONFilePreset, dbDefault. simpl.
    rewrite own_get_set_ne by (intros <-; congruence).
    by rewrite own_get_fmap, Hk.
Qed.

Lemma new_database_consistent_witness :
  own_get [ ("users", [ ({[ "id" := VNum 1 ]} : record) ]); ("orders", []) ]
    "_metadata" = None
  ∧ listTables
      (createMultiTableDatabase None "2024-01-01T00:00:00.000Z"
         [ ("users", [ {[ "id" := VNum 1 ]} ]); ("orders", []) ])
    = Object_keys
        [ ("users", [ ({[ "id" := VNum 1 ]} : record) ]); ("orders", []) ].
Proof.
  assert (H : own_get [ ("users", [ ({[ "id" := VNum 1 ]} : record) ]);
                        ("orders", []) ] "_metadata" = None) by reflexivity.
  exact (conj H (proj1 (new_database_consistent _ _ H))).
Defined.

(** X16: on a table that has no record with the id, [update] and
    [remove] through the handle resolve to [undefined] and leave the whole
    document as it was. *)
Theorem table_update_remove_unknown_id tableName id (updates : record) data
    (rows : list record) (tables : option (list string)) :
  own_get data tableName = Some (EArray rows tables) →
  Forall (λ x, has_id id x = false) rows →
  (table tableName).(update) id updates data = (Return None, data)
  ∧ (table tableName).(remove) id data = (Return None, data).
Proof.
  intros Hown Hno. simpl. rewrite (ensureTable_own _ _ _ Hown).
  unfold db_update. rewrite (doc_get_own _ _ _ Hown). simpl.
  rewrite findIndex_no_match by done.
  rewrite bool_decide_eq_false_2 by (intros Hne; by apply Hne).
  rewrite (doc_get_own _ _ _ Hown). simpl.
  by rewrite find_no_match.
Qed.

Lemma table_update_remove_unknown_id_witness :
  own_get [ ("users", EArray [ {[ "id" := VNum 1 ]} ] None) ] "users"
  = Some (EArray [ {[ "id" := VNum 1 ]} ] None)
  ∧ Forall (λ x, has_id (IdNum 999) x = false)
      [ ({[ "id" := VNum 1 ]} : record) ]
  ∧ (table "users").(remove) (IdNum 999)
      [ ("users", EArray [ {[ "id" := VNum 1 ]} ] None) ]
    = (Return None, [ ("users", EArray [ {[ "id" := VNum 1 ]} ] None) ]).
Proof.
  assert (H1 : own_get [ ("users", EArray [ {[ "id" := VNum 1 ]} ] None) ]
                 "users"
               = Some (EArray [ {[ "id" := VNum 1 ]} ] None)) by reflexivity.
  assert (H2 : Forall (λ x, has_id (IdNum 999) x = false)
                 [ ({[ "id" := VNum 1 ]} : record) ]) by (repeat constructor).
  exact (conj H1 (conj H2
           (proj2 (table_update_remove_unknown_id _ _ ∅ _ _ _ H1 H2)))).
Defined.

(** X17: on a table that has no record with the id of [r], [add(r)]
    through the handle returns [r], appends it to the rows of the table, and
    [getById] finds it at once; [count] is one more. *)
Theorem table_add_then_getById tableName (r : record) id data
    (rows : list record) (tables : option (list string)) :
  own_get data tableName = Some (EArray rows tables) →
  get_id r = id_value id →
  Forall (λ x, has_id id x = false) rows →
  ∃ data',
    (table tableName).(add) r data = (Return r, data')
    ∧ own_get data' tableName = Some (EArray (rows ++ [r]) tables)
    ∧ (table tableName).(getById) id data' = Return (Some r)
    ∧ (table tableName).(count) data'
      = Return (VNum (Z.of_nat (length rows) + 1)).
Proof.
  intros Hown Hid Hno.
  exists (own_set data tableName (EArray (rows ++ [r]) tables)).
  pose proof (own_get_set_eq data tableName (EArray (rows ++ [r]) tables))
    as Hown'.
  split; [by apply table_add_own|]. split; [done|]. split.
  - rewrite (table_getById_own _ _ _ _ _ Hown').
    rewrite find_first; [done | done | by apply has_id_get_id].
  - rewrite (table_count_own _ _ _ _ Hown'). rewrite length_app. simpl.
    do 2 f_equal. lia.
Qed.

Lemma table_add_then_getById_witness :
  own_get [ ("users", EArray [ {[ "id" := VNum 1 ]} ] None) ] "users"
  = Some (EArray [ {[ "id" := VNum 1 ]} ] None)
  ∧ get_id {[ "id" := VNum 2 ]} = id_value (IdNum 2)
  ∧ Forall (λ x, has_id (IdNum 2) x = false)
      [ ({[ "id" := VNum 1 ]} : record) ]
  ∧ ∃ data',
      (table "users").(add) {[ "id" := VNum 2 ]}
        [ ("users", EArray [ {[ "id" := VNum 1 ]} ] None) ]
      = (Return {[ "id" := VNum 2 ]}, data')
      ∧ (table "users").(getById) (IdNum 2) data'
        = Return (Some {[ "id" := VNum 2 ]}).
Proof.
  assert (H1 : own_get [ ("users", EArray [ {[ "id" := VNum 1 ]} ] None) ]
                 "users"
               = Some (EArray [ {[ "id" := VNum 1 ]} ] None)) by reflexivity.
  assert (H2 : get_id {[ "id" := VNum 2 ]} = id_value (IdNum 2))
    by reflexivity.
  assert (H3 : Forall (λ x, has_id (IdNum 2) x = false)
                 [ ({[ "id" := VNum 1 ]} : record) ]) by (repeat constructor).
  split; [exact H1|]. split; [exact H2|]. split; [exact H3|].
  destruct (table_add_then_getById _ _ _ _ _ _ H1 H2 H3)
    as (data' & Ha & _ & Hg & _).
  exists data'. split; [exact Ha | exact Hg].
Defined.

Lemma table_remove_own tableName id data
    (rows : list record) (tables : option (list string)) :
  own_get data tableName = Some (EArray rows tables) →
  (table tableName).(remove) id data
  = if bool_decide (Array_findIndex (has_id id) rows ≠ -1) then
      (Return (head (Array_splice1 rows
                       (Array_findIndex (has_id id) rows)).1),
       own_set data tableName
         (EArray (Array_splice1 rows
                    (Array_findIndex (has_id id) rows)).2 tables))
    else (Return None, data).
Proof.
  intros Hown. simpl. rewrite (ensureTable_own _ _ _ Hown).
  rewrite (doc_get_own _ _ _ Hown). simpl. by case_bool_decide.
Qed.

(** X18: [remove(id)] through the handle takes the first record with the
    id out of the table and returns it; the other rows keep their order. *)
Theorem table_remove_first_match tableName id data
    (l1 l2 : list record) (x : record) (tables : option (list string)) :
  own_get data tableName = Some (EArray (l1 ++ x :: l2) tables) →
  Forall (λ y, has_id id y = false) l1 → has_id id x = true →
  ∃ data',
    (table tableName).(remove) id data = (Return (Some x), data')
    ∧ own_get data' tableName = Some (EArray (l1 ++ l2) tables).
Proof.
  intros Hown Hno Hx.
  exists (own_set data tableName (EArray (l1 ++ l2) tables)). split.
  - rewrite (table_remove_own _ _ _ _ _ Hown).
    rewrite findIndex_first by done.
    rewrite bool_decide_eq_true_2 by lia.
    by rewrite splice1_first.
  - apply own_get_set_eq.
Qed.

Lemma table_remove_first_match_witness :
  own_get [ ("users", EArray ([] ++ {[ "id" := VNum 1 ]} :: []) None) ]
    "users"
  = Some (EArray ([] ++ {[ "id" := VNum 1 ]} :: []) None)
  ∧ Forall (λ y, has_id (IdNum 1) y = false) ([] : list record)
  ∧ has_id (IdNum 1) {[ "id" := VNum 1 ]} = true
  ∧ ∃ data',
      (table "users").(remove) (IdNum 1)
        [ ("users", EArray ([] ++ {[ "id" := VNum 1 ]} :: []) None) ]
      = (Return (Some {[ "id" := VNum 1 ]}), data')
      ∧ own_get data' "users" = Some (EArray ([] ++ []) None).
Proof.
  assert (H1 : own_get
                 [ ("users", EArray ([] ++ {[ "id" := VNum 1 ]} :: []) None) ]
                 "users"
               = Some (EArray ([] ++ {[ "id" := VNum 1 ]} :: []) None))
    by reflexivity.
  assert (H2 : Forall (λ y, has_id (IdNum 1) y = false) ([] : list record))
    by constructor.
  assert (H3 : has_id (IdNum 1) {[ "id" := VNum 1 ]} = true) by reflexivity.
  split; [exact H1|]. split; [exact H2|]. split; [exact H3|].
  destruct (table_remove_first_match _ _ _ _ _ _ _ H1 H2 H3)
    as (data' & Hr & Ho).
  exists data'. split; [exact Hr | exact Ho].
Defined.

(** X19: [update(id, updates)] through the handle, with updates that do
    not mention [id], on a table whose first record with the id is [old]:
    the merged record is returned and stored in the place of [old]; fields
    the updates name are overlaid, the others kept; the rows around it are
    untouched. *)
Theorem table_update_merges_in_place tableName id (updates : record) data
    (l1 l2 : list record) (old : record) (tables : option (list string)) :
  own_get data tableName = Some (EArray (l1 ++ old :: l2) tables) →
  Forall (λ y, has_id id y = false) l1 → has_id id old = true →
  updates !! "id" = None →
  ∃ merged data',
    (table tableName).(update) id updates data = (Return (Some merged), data')
    ∧ own_get data' tableName = Some (EArray (l1 ++ merged :: l2) tables)
    ∧ (∀ f v, updates !! f = Some v → merged !! f = Some v)
    ∧ (∀ f, updates !! f = None → merged !! f = old !! f).
Proof.
  intros Hown Hno Hold Hid.
  exists (spread old updates),
    (own_set data tableName
       (EArray (l1 ++ spread old updates :: l2) tables)).
  split.
  - apply table_update_matched_keeping_id; [done..|].
    by rewrite spread_keeps_id.
  - split; [apply own_get_set_eq|].
    split; [apply spread_overlaid | apply spread_preserved].
Qed.

Lemma table_update_merges_in_place_witness :
  own_get
    [ ("users",
       EArray ([] ++ {[ "id" := VNum 1; "name" := VStr "A" ]} :: []) None) ]
    "users"
  = Some (EArray ([] ++ {[ "id" := VNum 1; "name" := VStr "A" ]} :: []) None)
  ∧ Forall (λ y, has_id (IdNum 1) y = false) ([] : list record)
  ∧ has_id (IdNum 1) {[ "id" := VNum 1; "name" := VStr "A" ]} = true
  ∧ ({[ "name" := VStr "A2" ]} : record) !! "id" = None
  ∧ ∃ merged data',
      (table "users").(update) (IdNum 1) {[ "name" := VStr "A2" ]}
        [ ("users",
           EArray ([] ++ {[ "id" := VNum 1; "name" := VStr "A" ]} :: [])
             None) ]
      = (Return (Some merged), data')
      ∧ merged !! "name" = Some (VStr "A2").
Proof.
  assert (H1 : own_get
                 [ ("users",
                    EArray ([] ++ {[ "id" := VNum 1; "name" := VStr "A" ]}
                              :: []) None) ] "users"
               = Some (EArray ([] ++ {[ "id" := VNum 1; "name" := VStr "A" ]}
                                 :: []) None)) by reflexivity.
  assert (H2 : Forall (λ y, has_id (IdNum 1) y = false) ([] : list record))
    by constructor.
  assert (H3 : has_id (IdNum 1) {[ "id" := VNum 1; "name" := VStr "A" ]}
               = true) by reflexivity.
  assert (H4 : ({[ "name" := VStr "A2" ]} : record) !! "id" = None)
    by reflexivity.
  split; [exact H1|]. split; [exact H2|]. split; [exact H3|].
  split; [exact H4|].
  destruct (table_update_merges_in_place _ _ _ _ _ _ _ _ H1 H2 H3 H4)
    as (merged & data' & Hu & _ & Hover & _).
  exists merged, data'. split; [exact Hu|].
  apply Hover. reflexivity.
Defined.

(** X20: [clear()] through the handle of a key the document has puts an
    empty array under it: [count] is 0 afterwards, the key keeps its place
    among the tables [listTables] returns, and the other keys keep their
    content. *)
Theorem table_clear_existing tableName data e :
  own_get data tableName = Some e →
  ∃ data',
    (table tableName).(clear) data = (Return (), data')
    ∧ own_get data' tableName = Some (EArray [] None)
    ∧ (table tableName).(count) data' = Return (VNum 0)
    ∧ listTables data' = listTables data
    ∧ ∀ k, k ≠ tableName → own_get data' k = own_get data k.
Proof.
  intros Hown. exists (own_set data tableName (EArray [] None)).
  pose proof (own_get_set_eq data tableName (EArray [] None)) as Hown'.
  split.
  - simpl. by rewrite (ensureTable_own _ _ _ Hown).
  - split; [done|]. split; [by rewrite (table_count_own _ _ _ _ Hown')|].
    split.
    + unfold listTables, table_keys, Object_keys.
      by rewrite own_set_keys by (by rewrite Hown).
    + intros k Hk. by rewrite own_get_set_ne.
Qed.

Lemma table_clear_existing_witness :
  own_get [ ("users", EArray [ {[ "id" := VNum 1 ]} ] None) ] "users"
  = Some (EArray [ {[ "id" := VNum 1 ]} ] None)
  ∧ ∃ data',
      (table "users").(clear)
        [ ("users", EArray [ {[ "id" := VNum 1 ]} ] None) ]
      = (Return (), data')
      ∧ (table "users").(count) data' = Return (VNum 0).
Proof.
  assert (H : own_get [ ("users", EArray [ {[ "id" := VNum 1 ]} ] None) ]
                "users"
              = Some (EArray [ {[ "id" := VNum 1 ]} ] None)) by reflexivity.
  split; [exact H|].
  destruct (table_clear_existing _ _ _ H) as (data' & Hc & _ & Hn & _).
  exists data'. split; [exact Hc | exact Hn].
Defined.

End MultiTableMore.
